(** * vplc: token-based output checker

    A shallow embedding of [Tokenizer.ipp], [diff_checker_base.ipp],
    [diff_checker_char.cpp] and [diff_checker_real.cpp], and the properties
    of the tokenizer and of the grading loop proved on it.

    Conventions of the embedding:
    - a character stream is a [string] of unread bytes together with the
      two state bits of [std::istream] the code depends on;
    - [uint64_t] positions are [Z] with the wrap-around written out;
    - code that can throw returns a [result]; member functions of the
      tokenizer are state transformers over the tokenizer record;
    - [while (true)] is a fuelled loop, with a proof that the fuel computed
      from the input is enough. *)

From Stdlib Require Import ZArith List String Ascii Bool Lia DecimalString.
From Stdlib Require Import SpecFloat.
Import ListNotations.

Local Open Scope string_scope.
Local Open Scope Z_scope.

(** ** Exceptions *)

(** What a [throw] throws: a [logic_error] or a [runtime_error] by value, or
    with [throw new logic_error(...)] a pointer to one. *)
Inductive exn : Type :=
| logic_error (what : string)
| runtime_error (what : string)
| logic_error_ptr (what : string).

Inductive result (A : Type) : Type :=
| Ret (a : A)
| Throw (e : exn).

Arguments Ret {A} a.
Arguments Throw {A} e.

(** A member function of an object of type [S] returning [A]: it may change
    the object and then either return or throw. *)
Definition M (S A : Type) : Type := S -> result A * S.

Definition ret {S A} (a : A) : M S A := fun s => (Ret a, s).

Definition throw {S A} (e : exn) : M S A := fun s => (Throw e, s).

Definition bind {S A B} (m : M S A) (k : A -> M S B) : M S B :=
  fun s =>
    match m s with
    | (Ret a, s') => k a s'
    | (Throw e, s') => (Throw e, s')
    end.

Definition lift {S A} (r : result A) : M S A := fun s => (r, s).

Definition gets {S A} (f : S -> A) : M S A := fun s => (Ret (f s), s).

Definition modify {S} (f : S -> S) : M S unit := fun s => (Ret tt, f s).

Declare Scope monad_scope.
Delimit Scope monad_scope with monad.
Notation "x <- m ;; k" := (bind m (fun x => k))
  (at level 61, m at next level, right associativity) : monad_scope.
Notation "m ;; k" := (bind m (fun _ => k))
  (at level 61, right associativity) : monad_scope.

(** ** Characters and unsigned 64-bit positions *)

Definition nl : string := String "010" EmptyString.

(** [istream::int_type] value of a character: its code as an unsigned char. *)
Definition code (c : ascii) : Z := Z.of_N (N_of_ascii c).

Definition EOF : Z := -1.

Definition wrap64 (z : Z) : Z := z mod 2 ^ 64.

(** [ostream << uint64_t]: the decimal numeral. *)
Definition show_pos (p : Z) : string := NilZero.string_of_uint (N.to_uint (Z.to_N p)).

(** ** The part of [std::istream] the tokenizer uses *)

Module IStream.

Record istream : Type := mk {
  rdbuf : string;     (* the characters not yet extracted *)
  eofbit : bool;
  failbit : bool
}.

Definition good (s : istream) : bool := negb (eofbit s) && negb (failbit s).

Definition fail (s : istream) : bool := failbit s.

(** [std::ifstream(path)]: [None] is a file that cannot be opened. *)
Definition open (file : option string) : istream :=
  match file with
  | Some content => mk content false false
  | None => mk EmptyString false true
  end.

(** [peek()]: an unformatted input function; the sentry sets [failbit]
    on a stream that is not good, reaching the end sets [eofbit]. *)
Definition peek (s : istream) : Z * istream :=
  if good s then
    match rdbuf s with
    | EmptyString => (EOF, mk EmptyString true (failbit s))
    | String c _ => (code c, s)
    end
  else (EOF, mk (rdbuf s) (eofbit s) true).

(** [get()]: extracts one character; extracting nothing sets [failbit]. *)
Definition get (s : istream) : Z * istream :=
  if good s then
    match rdbuf s with
    | EmptyString => (EOF, mk EmptyString true true)
    | String c r => (code c, mk r (eofbit s) (failbit s))
    end
  else (EOF, mk (rdbuf s) (eofbit s) true).

(** [std::isspace] in the classic locale. *)
Definition isspace (c : ascii) : bool :=
  (code c =? 32) || ((9 <=? code c) && (code c <=? 13)).

Fixpoint skipws (s : string) : string :=
  match s with
  | EmptyString => EmptyString
  | String c r => if isspace c then skipws r else s
  end.

(** [is >> c] for [char c]: a formatted input function, so with the
    default [skipws] flag the sentry first discards white space.  The
    character returned on failure stands for the variable left
    unassigned; the caller tests [fail()] before it looks at it. *)
Definition extract_char (s : istream) : ascii * istream :=
  if good s then
    match skipws (rdbuf s) with
    | EmptyString => (zero, mk EmptyString true true)
    | String c r => (c, mk r (eofbit s) (failbit s))
    end
  else (zero, mk (rdbuf s) (eofbit s) true).

End IStream.

Import IStream.

(** ** Template parameters of [Token] and [Tokenizer]

    [T] with its stream extraction and insertion operators, the validity
    predicate [VAL] and the equality predicate [EQ]. *)

Class Profile (T : Type) : Type := {
  T_init : T;                        (* the value-initialised [T()] *)
  extract : istream -> T * istream;  (* [mInput >> value] *)
  insert : T -> string;              (* [ss << mValue] *)
  VAL : T -> bool;
  EQ : T -> T -> bool
}.

(** ** class Token *)

Module Token.

Inductive Kind : Type := Valid | Space | Newline | EndOfFile | Invalid.

Definition Kind_eqb (a b : Kind) : bool :=
  match a, b with
  | Valid, Valid | Space, Space | Newline, Newline
  | EndOfFile, EndOfFile | Invalid, Invalid => true
  | _, _ => false
  end.

Definition Pos : Type := Z.

Record t (T : Type) : Type := mk {
  mKind : Kind;
  mValue : T;
  mLine : Pos;
  mToken : Pos
}.

Arguments mk {T} _ _ _ _.
Arguments mKind {T} _.
Arguments mValue {T} _.
Arguments mLine {T} _.
Arguments mToken {T} _.

Section Members.
Context {T : Type} `{Profile T}.

(** [Token(Kind kind, Pos line, Pos token)] *)
Definition of_kind (kind : Kind) (line token : Pos) : result (t T) :=
  if Kind_eqb kind Valid
  then Throw (logic_error_ptr "Cannot create valid token without value.")
  else Ret (mk kind T_init line token).

(** [Token(T value, Pos line, Pos token)] *)
Definition of_value (value : T) (line token : Pos) : t T :=
  mk Valid value line token.

Definition kind (k : t T) : Kind := mKind k.

Definition value (k : t T) : result T :=
  if negb (Kind_eqb (mKind k) Valid)
  then Throw (logic_error_ptr "Cannot obtain value of non-valid token.")
  else Ret (mValue k).

Definition line (k : t T) : Pos := mLine k.

Definition token (k : t T) : Pos := mToken k.

Definition lstr (k : t T) : string :=
  match mKind k with
  | Valid => "'" ++ insert (mValue k) ++ "'"
  | Newline => "<newline>"
  | Space => "<space>"
  | EndOfFile => "<end>"
  | Invalid => "<invalid-format>"
  end.

Definition sstr (k : t T) : string :=
  match mKind k with
  | Valid => insert (mValue k)
  | Newline => nl
  | Space => " "
  | EndOfFile => "<end>"
  | Invalid => "<invalid-format>"
  end.

Definition isEqual (k other : t T) : bool :=
  if negb (Kind_eqb (mKind k) (mKind other)) then false
  else if Kind_eqb (mKind k) Valid then
    (if EQ (mValue k) (mValue other) then true else false)
  else true.

End Members.

End Token.

(** ** class Tokenizer *)

Module Tokenizer.

Import Token.

Record t : Type := mk {
  mInput : istream;
  mIsValid : bool;
  mLine : Pos;
  mToken : Pos
}.

Definition set_mInput (i : istream) (k : t) : t :=
  mk i (mIsValid k) (mLine k) (mToken k).

Definition set_mIsValid (b : bool) (k : t) : t :=
  mk (mInput k) b (mLine k) (mToken k).

Definition set_mLine (l : Pos) (k : t) : t :=
  mk (mInput k) (mIsValid k) l (mToken k).

Definition set_mToken (n : Pos) (k : t) : t :=
  mk (mInput k) (mIsValid k) (mLine k) n.

(** [Tokenizer(istream & input)] *)
Definition create (input : istream) : t := mk input true 1 1.

Definition isValid (k : t) : bool := mIsValid k.

Local Open Scope monad_scope.

(** A call of a member of [mInput]. *)
Definition on_input {A} (f : istream -> A * istream) : M t A :=
  fun k => let (a, i) := f (mInput k) in (Ret a, set_mInput i k).

Definition consume (c : Z) : M t unit :=
  g <- on_input get ;;
  if negb (g =? c) then
    modify (set_mIsValid false) ;;
    throw (runtime_error "Tokenizer failed unexpectedly. (consume)")
  else ret tt.

Section Next.
Context {T : Type} `{Profile T}.

(** [TokenType(kind, mLine, mToken)] on the current position. *)
Definition token_here (kind : Kind) : M t (Token.t T) :=
  l <- gets mLine ;;
  n <- gets mToken ;;
  lift (of_kind kind l n).

(** [mIsValid = false; return TokenType(kind, mLine, mToken);] *)
Definition finish (kind : Kind) : M t (Token.t T) :=
  modify (set_mIsValid false) ;;
  token_here kind.

(** [TokenType t(Newline, mLine, mToken); mLine++; mToken = 1; return t;] *)
Definition newline_token : M t (Token.t T) :=
  tok <- token_here Newline ;;
  modify (fun k => set_mLine (wrap64 (mLine k + 1)) k) ;;
  modify (set_mToken 1) ;;
  ret tok.

(** [mToken++] as an expression. *)
Definition post_incr_mToken : M t Pos :=
  n <- gets mToken ;;
  modify (set_mToken (wrap64 (n + 1))) ;;
  ret n.

Definition next : M t (Token.t T) :=
  valid <- gets mIsValid ;;
  if negb valid then throw (logic_error "Tokenizer is not valid anymore.")
  else
    peekc <- on_input peek ;;
    if peekc =? EOF then
      consume EOF ;; finish EndOfFile
    else if peekc =? code "010" then
      consume (code "010") ;;
      peekc <- on_input peek ;;
      if peekc =? EOF then consume EOF ;; finish EndOfFile
      else newline_token
    else if peekc =? code " " then
      consume (code " ") ;;
      peekc <- on_input peek ;;
      if peekc =? EOF then consume EOF ;; finish EndOfFile
      else if peekc =? code "010" then
        consume (code "010") ;;
        peekc <- on_input peek ;;
        if peekc =? EOF then consume EOF ;; finish EndOfFile
        else newline_token
      else
        l <- gets mLine ;;
        n <- post_incr_mToken ;;
        lift (of_kind Space l n)
    else
      value <- on_input extract ;;
      failed <- gets (fun k => fail (mInput k)) ;;
      if failed then finish Invalid
      else if VAL value then
        l <- gets mLine ;;
        n <- post_incr_mToken ;;
        ret (of_value value l n)
      else finish Invalid.

(** Repeated [next()] until the tokenizer is no longer valid: the
    tokens returned, and the tokenizer left behind. *)
Fixpoint run (fuel : nat) (k : t) : list (Token.t T) * t :=
  match fuel with
  | O => ([], k)
  | S fuel' =>
      match next k with
      | (Ret tok, k') =>
          if isValid k' then
            let (toks, k'') := run fuel' k' in (tok :: toks, k'')
          else ([tok], k')
      | (Throw _, k') => ([], k')
      end
  end.

(** Every call but the last extracts a character, so this much fuel is
    enough (see [run_fuel]). *)
Definition tokens_of (k : t) : list (Token.t T) :=
  fst (run (S (String.length (rdbuf (mInput k)))) k).

Definition tokens (content : string) : list (Token.t T) :=
  tokens_of (create (IStream.open (Some content))).

End Next.

End Tokenizer.

(** ** diff_checker_char.cpp: the character profile *)

Module DiffCheckerChar.

(** The value of a [char] on the target, where [char] is signed. *)
Definition char_value (c : ascii) : Z :=
  if code c <? 128 then code c else code c - 256.

Definition val (a : ascii) : bool :=
  (char_value "!" <=? char_value a) && (char_value a <=? char_value "~").

Definition eq (a b : ascii) : bool := char_value a =? char_value b.

#[global] Instance profile : Profile ascii := {
  T_init := zero;
  extract := extract_char;
  insert := fun c => String c EmptyString;
  VAL := val;
  EQ := eq
}.

Definition LookAhead : Z := 10.

End DiffCheckerChar.

(** ** diff_checker_base.ipp *)

Module DiffChecker.

Import Token.

(** The two tokenizers, the [checkerOutput] buffer and the two output
    streams of the process. *)
Record Run : Type := mk {
  claimed : Tokenizer.t;
  correct : Tokenizer.t;
  checkerOutput : string;
  cout : string;
  cerr : string
}.

Definition on_claimed {A} (m : M Tokenizer.t A) : M Run A :=
  fun r =>
    let (a, k) := m (claimed r) in
    (a, mk k (correct r) (checkerOutput r) (cout r) (cerr r)).

Definition on_correct {A} (m : M Tokenizer.t A) : M Run A :=
  fun r =>
    let (a, k) := m (correct r) in
    (a, mk (claimed r) k (checkerOutput r) (cout r) (cerr r)).

(** [checkerOutput << s] *)
Definition buffer (s : string) : M Run unit :=
  modify (fun r => mk (claimed r) (correct r) (checkerOutput r ++ s) (cout r) (cerr r)).

(** [cout << s] *)
Definition print (s : string) : M Run unit :=
  modify (fun r => mk (claimed r) (correct r) (checkerOutput r) (cout r ++ s) (cerr r)).

(** [cerr << s] *)
Definition eprint (s : string) : M Run unit :=
  modify (fun r => mk (claimed r) (correct r) (checkerOutput r) (cout r) (cerr r ++ s)).

Definition endl : string := nl.

Section Checker.
Context {T : Type} `{Profile T}.
Variable LookAhead : Z.
Variables ShowDiff ShowOutput : bool.

Local Open Scope monad_scope.

(** The test that leaves the echo loop: the token is EndOfFile or
    Invalid. *)
Definition is_last (tok : Token.t T) : bool :=
  Kind_eqb (kind tok) EndOfFile || Kind_eqb (kind tok) Invalid.

(** [for (int i = 0; i < LookAhead; i++)] with [n] iterations left;
    the result is the final [claimedToken]. *)
Fixpoint look_ahead (n : nat) (claimedToken : Token.t T) : M Run (Token.t T) :=
  match n with
  | O => ret claimedToken
  | S n' =>
      if is_last claimedToken then ret claimedToken
      else
        claimedToken <- on_claimed Tokenizer.next ;;
        buffer (sstr claimedToken) ;;
        look_ahead n' claimedToken
  end.

(** The branch [if constexpr (ShowDiff)] of a mismatch. *)
Definition show_diff (isTestCaseHidden : bool)
    (claimedToken correctToken : Token.t T) : M Run unit :=
  if ShowDiff then
    if isTestCaseHidden then
      print ("0|Wrong output. (Mismatch intentionally hidden.)" ++ endl)
    else
      print ("0|Unexpected " ++ lstr claimedToken
             ++ " at line " ++ show_pos (line claimedToken)
             ++ ", token " ++ show_pos (token claimedToken)
             ++ ", while expecting " ++ lstr correctToken
             ++ "." ++ endl)
  else print ("0|Wrong output." ++ endl).

(** The branch [if constexpr (ShowOutput)] of a mismatch. *)
Definition show_output (isTestCaseHidden : bool)
    (claimedToken : Token.t T) : M Run unit :=
  if ShowOutput then
    if isTestCaseHidden then
      print ("(Your output is intentionally hidden.)" ++ endl)
    else
      print ("Your output (as parsed):" ++ endl) ;;
      claimedToken <- look_ahead (Z.to_nat LookAhead) claimedToken ;;
      (if Kind_eqb (kind claimedToken) Invalid then buffer "..?.."
       else if negb (Kind_eqb (kind claimedToken) EndOfFile) then buffer "....."
       else ret tt) ;;
      out <- gets checkerOutput ;;
      print out ;;
      print endl
  else ret tt.

(** One turn of [while (true)]: [Some c] is [return c], [None] goes
    round again. *)
Definition body (isTestCaseHidden : bool) : M Run (option Z) :=
  claimedToken <- on_claimed Tokenizer.next ;;
  correctToken <- on_correct Tokenizer.next ;;
  if Kind_eqb (kind correctToken) Invalid then
    eprint ("Ground-truth file format is invalid." ++ endl) ;;
    ret (Some 1)
  else
    buffer (sstr claimedToken) ;;
    if negb (isEqual correctToken claimedToken) then
      show_diff isTestCaseHidden claimedToken correctToken ;;
      show_output isTestCaseHidden claimedToken ;;
      ret (Some 0)
    else if Kind_eqb (kind correctToken) EndOfFile then
      print "1|Correct output." ;;
      ret (Some 0)
    else ret None.

(** [None] is a loop that has not returned when the fuel ran out. *)
Fixpoint loop (fuel : nat) (isTestCaseHidden : bool) (r : Run)
    : option (result Z * Run) :=
  match fuel with
  | O => None
  | S fuel' =>
      match body isTestCaseHidden r with
      | (Ret (Some c), r') => Some (Ret c, r')
      | (Ret None, r') => loop fuel' isTestCaseHidden r'
      | (Throw e, r') => Some (Throw e, r')
      end
  end.

(** The loop entered on two open streams. *)
Definition start (claimedStream correctStream : istream) : Run :=
  mk (Tokenizer.create claimedStream) (Tokenizer.create correctStream) "" "" "".

Definition compare (isTestCaseHidden : bool)
    (claimedStream correctStream : istream) : option (result Z * Run) :=
  loop (S (String.length (rdbuf claimedStream))) isTestCaseHidden
       (start claimedStream correctStream).

(** What the process leaves behind: standard output, standard error. *)
Definition Console : Type := (string * string)%type.

Definition console (r : Run) : Console := (cout r, cerr r).

(** [argv] lists all [argc] arguments, the program name first; [fs]
    maps a path to the content of the file, if it can be opened. *)
Definition diff_checker_base (fs : string -> option string)
    (argv : list string) : option (result Z * Console) :=
  let argc := Z.of_nat (List.length argv) in
  if argc <? 5 then Some (Ret 1, ("", "Invalid parameters." ++ endl))
  else
    let claimedOutputPath := nth 2 argv "" in
    let correctOutputPath := nth 3 argv "" in
    let argv4 := nth 4 argv "" in
    if negb (argv4 =? "0")%string && negb (argv4 =? "1")%string then
      Some (Ret 1, ("", "Invalid test-case-hidden parameter." ++ endl))
    else
      let isTestCaseHidden := (argv4 =? "1")%string in
      let claimedStream := IStream.open (fs claimedOutputPath) in
      if fail claimedStream then
        Some (Ret 0, ("0|Error opening the output file." ++ endl, ""))
      else
        let correctStream := IStream.open (fs correctOutputPath) in
        if fail correctStream then
          Some (Ret 1, ("", "Error opening the ground-truth file." ++ endl))
        else
          match compare isTestCaseHidden claimedStream correctStream with
          | Some (c, r) => Some (c, console r)
          | None => None
          end.

End Checker.

End DiffChecker.

(** ** diff_checker_real.cpp: the predicates of the real-number profile

    [long double] is the 80-bit extended format of the x86-64 target: 64
    bits of precision, rounding to nearest even.  Extraction and printing of
    numbers are not modelled, the two predicates are. *)

Module DiffCheckerReal.

Definition prec : Z := 64.
Definition emax : Z := 16384.

Definition long_double : Type := spec_float.

Definition of_Z (z : Z) : long_double := binary_normalize prec emax z 0 false.

(** A decimal literal [num/den] with the suffix [L]: the nearest
    [long double]. *)
Definition literal (num den : Z) : long_double :=
  SFdiv prec emax (of_Z num) (of_Z den).

Definition isfinite (a : long_double) : bool :=
  match a with
  | S754_zero _ | S754_finite _ _ _ => true
  | S754_infinity _ | S754_nan => false
  end.

Definition sub : long_double -> long_double -> long_double := SFsub prec emax.
Definition mul : long_double -> long_double -> long_double := SFmul prec emax.
Definition le : long_double -> long_double -> bool := SFleb.

Definition val (a : long_double) : bool := isfinite a.

Definition eq (a b : long_double) : bool :=
  if le (sub a b) (literal 1 100000) && le (sub b a) (literal 1 100000) then true
  else if le (literal 0 1) a then
    le (mul a (literal 99 100)) b && le b (mul a (literal 101 100))
  else
    le (mul a (literal 101 100)) b && le b (mul a (literal 99 100)).

Definition LookAhead : Z := 3.

End DiffCheckerReal.


(** ** A file system and a command line to run the checker on *)

(** The claimed output is in [claimed.txt] and the ground truth in
    [correct.txt]; [None] is a file that cannot be opened. *)
Definition two_files (claimedContent correctContent : option string)
    : string -> option string :=
  fun path =>
    if (path =? "claimed.txt")%string then claimedContent
    else if (path =? "correct.txt")%string then correctContent
    else None.

Definition command_line (hidden : string) : list string :=
  ["checker"; "input.txt"; "claimed.txt"; "correct.txt"; hidden].

(** ** Stream extraction that behaves

    What the standard promises of [operator>>] and the loops rely on: an
    extraction that does not fail has taken at least one character. *)

Class ProfileOk (T : Type) `{Profile T} : Prop := {
  extract_progress : forall s : istream,
    fail (snd (extract s)) = false ->
    (String.length (rdbuf (snd (extract s))) < String.length (rdbuf s))%nat
}.

(** ** Vocabulary of the statements *)

Section Vocabulary.
Context {T : Type} `{Profile T}.

Import Token.

(** The tokenizer after [n] calls of [next()]. *)
Definition advance (n : nat) (k : Tokenizer.t) : Tokenizer.t :=
  Nat.iter n (fun k => snd (Tokenizer.next k)) k.

(** The unread characters of a tokenizer's stream. *)
Definition unread (k : Tokenizer.t) : string := rdbuf (Tokenizer.mInput k).

(** The first [n] token pairs exist and are equal by [isEqual]. *)
Definition agree (cs gs : list (Token.t T)) (n : nat) : Prop :=
  forall i, (i < n)%nat ->
    exists c g, nth_error cs i = Some c /\ nth_error gs i = Some g /\
                isEqual g c = true.

(** The grading protocol read off the two token sequences: the index of
    the pair that decides, and what it decides. *)
Inductive Verdict : Type :=
| Correct
| Mismatch (claimedToken correctToken : Token.t T)
| BadGroundTruth.

Fixpoint verdict (cs gs : list (Token.t T)) : option (nat * Verdict) :=
  match cs, gs with
  | c :: cs', g :: gs' =>
      if Kind_eqb (kind g) Invalid then Some (O, BadGroundTruth)
      else if negb (isEqual g c) then Some (O, Mismatch c g)
      else if Kind_eqb (kind g) EndOfFile then Some (O, Correct)
      else
        match verdict cs' gs' with
        | Some (n, v) => Some (S n, v)
        | None => None
        end
  | _, _ => None
  end.

(** A token sequence in which nothing follows an [EndOfFile] or
    [Invalid] token. *)
Definition ended (l : list (Token.t T)) : Prop :=
  forall i tok, nth_error l i = Some tok ->
    DiffChecker.is_last tok = true -> nth_error l (S i) = None.

(** What a call of [next()] on a valid tokenizer does, by the kind of the
    token it returns. *)
Definition next_post (k : Tokenizer.t) (tok : Token.t T) (k' : Tokenizer.t)
    : Prop :=
  Token.mLine tok = Tokenizer.mLine k /\
  Token.mToken tok = Tokenizer.mToken k /\
  match Token.mKind tok with
  | EndOfFile | Invalid =>
      Tokenizer.mIsValid k' = false /\
      Tokenizer.mLine k' = Tokenizer.mLine k /\
      Tokenizer.mToken k' = Tokenizer.mToken k
  | Newline =>
      Tokenizer.mIsValid k' = true /\
      Tokenizer.mLine k' = wrap64 (Tokenizer.mLine k + 1) /\
      Tokenizer.mToken k' = 1 /\
      (String.length (unread k') < String.length (unread k))%nat
  | Space =>
      Tokenizer.mIsValid k' = true /\
      Tokenizer.mLine k' = Tokenizer.mLine k /\
      Tokenizer.mToken k' = wrap64 (Tokenizer.mToken k + 1) /\
      (String.length (unread k') < String.length (unread k))%nat
  | Valid =>
      Tokenizer.mIsValid k' = true /\
      Tokenizer.mLine k' = Tokenizer.mLine k /\
      Tokenizer.mToken k' = wrap64 (Tokenizer.mToken k + 1) /\
      Tokenizer.mInput k' = snd (extract (Tokenizer.mInput k)) /\
      fail (Tokenizer.mInput k') = false
  end.

(** The sequence is not empty and goes on after every token that is not
    the last. *)
Definition continued (l : list (Token.t T)) : Prop :=
  l <> [] /\
  forall i tok, nth_error l i = Some tok -> DiffChecker.is_last tok = false ->
    nth_error l (S i) <> None.

(** The cases in which the checker reports a failure of its environment. *)
Definition environment_error (fs : string -> option string)
    (argv : list string) : Prop :=
  (List.length argv < 5)%nat \/
  (nth 4 argv "" <> "0" /\ nth 4 argv "" <> "1") \/
  exists cc, fs (nth 2 argv "") = Some cc /\
    (fs (nth 3 argv "") = None \/
     exists gc n g, fs (nth 3 argv "") = Some gc /\
       agree (Tokenizer.tokens cc) (Tokenizer.tokens gc) n /\
       nth_error (Tokenizer.tokens gc) n = Some g /\ kind g = Invalid).

(** Extraction reads the value [v] from the text [text] when white space
    follows it, and [v] is valid. *)
Definition reads (text : string) (v : T) : Prop :=
  VAL v = true /\
  forall c rest, isspace c = true ->
    extract (IStream.mk (text ++ String c rest) false false)
    = (v, IStream.mk (String c rest) false false).

(** The marker that closes the echoed output. *)
Definition marker (lastToken : Token.t T) : string :=
  match kind lastToken with
  | Invalid => "..?.."
  | EndOfFile => ""
  | _ => "....."
  end.

(** The tokens the echo pulls after a mismatch on [claimedToken]. *)
Definition echoed (LookAhead : Z) (claimedToken : Token.t T)
    (k : Tokenizer.t) : list (Token.t T) :=
  if DiffChecker.is_last claimedToken then []
  else firstn (Z.to_nat LookAhead) (Tokenizer.tokens_of k).

Definition sstrs (l : list (Token.t T)) : string :=
  fold_right (fun tok s => sstr tok ++ s) "" l.

Section Protocol.
Variable LookAhead : Z.
Variables ShowDiff ShowOutput : bool.

Import DiffChecker.

(** The loop started in [r], after it has pulled the pairs [0..n] and
    buffered the claimed tokens. *)
Definition at_pair (n : nat) (r : Run) : Run :=
  DiffChecker.mk (advance (S n) (claimed r)) (advance (S n) (correct r))
    (checkerOutput r ++ sstrs (firstn (S n) (Tokenizer.tokens_of (claimed r))))
    (cout r) (cerr r).

(** The branch taken on a mismatch, as a whole. *)
Definition mismatch_branch (isTestCaseHidden : bool)
    (claimedToken correctToken : Token.t T) : M Run (option Z) :=
  (show_diff ShowDiff isTestCaseHidden claimedToken correctToken ;;
   show_output LookAhead ShowOutput isTestCaseHidden claimedToken ;;
   ret (Some 0))%monad.

Definition report (isTestCaseHidden : bool)
    (claimedToken correctToken : Token.t T) (r : Run) : Run :=
  snd (mismatch_branch isTestCaseHidden claimedToken correctToken r).

(** What the loop started in [r] returns and leaves behind when the
    pair [n] decides. *)
Definition outcome (isTestCaseHidden : bool) (r : Run)
    (d : nat * Verdict) : result Z * Run :=
  match d with
  | (n, Correct) =>
      let r' := at_pair n r in
      (Ret 0, DiffChecker.mk (claimed r') (correct r') (checkerOutput r')
                (cout r ++ "1|Correct output.") (cerr r))
  | (n, Mismatch c g) => (Ret 0, report isTestCaseHidden c g (at_pair n r))
  | (n, BadGroundTruth) =>
      (Ret 1, DiffChecker.mk (advance (S n) (claimed r)) (advance (S n) (correct r))
                (checkerOutput r ++ sstrs (firstn n (Tokenizer.tokens_of (claimed r))))
                (cout r)
                (cerr r ++ "Ground-truth file format is invalid." ++ endl))
  end.

(** The line printed for a mismatch that is shown in detail. *)
Definition unexpected_line (claimedToken correctToken : Token.t T) : string :=
  "0|Unexpected " ++ lstr claimedToken
  ++ " at line " ++ show_pos (line claimedToken)
  ++ ", token " ++ show_pos (token claimedToken)
  ++ ", while expecting " ++ lstr correctToken ++ "." ++ endl.

End Protocol.

End Vocabulary.

(** ** Vocabulary of the further properties *)

Section Sequences.
Context {T : Type} `{Profile T}.

Import Token.

(** The number of Newline tokens of a sequence. *)
Fixpoint newlines (l : list (Token.t T)) : nat :=
  match l with
  | [] => O
  | tok :: l' =>
      match kind tok with
      | Newline => S (newlines l')
      | _ => newlines l'
      end
  end.

(** The number of tokens of a sequence that come after its last Newline
    token. *)
Definition column (l : list (Token.t T)) : nat :=
  fold_left (fun acc tok => match kind tok with Newline => O | _ => S acc end) l O.

End Sequences.

Section Expected.
Context {T : Type} `{Profile T}.
Variable LookAhead : Z.
Variables ShowDiff ShowOutput : bool.

Import Token.

(** The grade line of a mismatch. *)
Definition diff_text (isTestCaseHidden : bool)
    (claimedToken correctToken : Token.t T) : string :=
  if ShowDiff then
    if isTestCaseHidden then
      "0|Wrong output. (Mismatch intentionally hidden.)" ++ DiffChecker.endl
    else unexpected_line claimedToken correctToken
  else "0|Wrong output." ++ DiffChecker.endl.

(** What follows the grade line of a mismatch at pair [n], read off the
    claimed token sequence [cs]. *)
Definition echo_text (isTestCaseHidden : bool) (n : nat)
    (claimedToken : Token.t T) (cs : list (Token.t T)) : string :=
  if ShowOutput then
    if isTestCaseHidden then
      "(Your output is intentionally hidden.)" ++ DiffChecker.endl
    else
      "Your output (as parsed):" ++ DiffChecker.endl
      ++ sstrs (firstn (S n + Z.to_nat LookAhead) cs)
      ++ marker (last (firstn (S n + Z.to_nat LookAhead) cs) claimedToken)
      ++ DiffChecker.endl
  else "".

(** The status and the two output streams of a comparison, read off the
    two token sequences. *)
Definition expected (isTestCaseHidden : bool) (cs gs : list (Token.t T))
    : option (Z * DiffChecker.Console) :=
  match verdict cs gs with
  | Some (_, Correct) => Some (0, ("1|Correct output.", ""))
  | Some (n, Mismatch c g) =>
      Some (0, (diff_text isTestCaseHidden c g
                ++ echo_text isTestCaseHidden n c cs, ""))
  | Some (_, BadGroundTruth) =>
      Some (1, ("", "Ground-truth file format is invalid." ++ DiffChecker.endl))
  | None => None
  end.

End Expected.

(** A stream that is empty or whose last character is not white space. *)
Fixpoint ends_in_text (w : string) : bool :=
  match w with
  | EmptyString => true
  | String c EmptyString => negb (isspace c)
  | String _ r => ends_in_text r
  end.

(** The white space the tokenizer skips at the end of a stream: a space, a
    newline, or a space and a newline. *)
Definition insignificant (t : string) : Prop :=
  t = "" \/ t = " " \/ t = nl \/ t = " " ++ nl.

(** A text of printable characters, single or repeated spaces and newlines
    in which no white space is at the end and no space is before a
    newline: the streams of which the tokenizer skips nothing. *)
Fixpoint echoable (w : string) : bool :=
  match w with
  | EmptyString => true
  | String c r =>
      if DiffCheckerChar.val c then echoable r
      else if (code c =? code " ") || (code c =? code "010") then
        match r with
        | EmptyString => false
        | String d _ => negb ((code c =? code " ") && (code d =? code "010"))
                        && echoable r
        end
      else false
  end.

(** ** Facts about the stream and the monad *)

Lemma code_range (c : ascii) : 0 <= code c < 256.
Proof.
  unfold code. pose proof (N_ascii_bounded c). lia.
Qed.

Lemma code_not_EOF (c : ascii) : (code c =? EOF) = false.
Proof.
  apply Z.eqb_neq. pose proof (code_range c). unfold EOF. lia.
Qed.

Section TokenizerFacts.
Context {T : Type} `{Profile T}.

Import Token Tokenizer.

Ltac run_members :=
  unfold next, consume, finish, token_here, newline_token, post_incr_mToken,
    on_input, bind, gets, modify, ret, throw, lift, of_value,
    set_mInput, set_mIsValid, set_mLine, set_mToken; cbn.

Ltac returned :=
  eexists; eexists; split; [reflexivity | cbn; repeat split; auto; lia].

Lemma next_valid (k : Tokenizer.t) :
  mIsValid k = true ->
  exists tok k', next k = (Ret tok, k') /\ next_post k tok k'.
Proof.
  destruct k as [[buf e f] v l n]. simpl. intros ->.
  unfold next_post, unread. run_members.
  destruct e, f, buf as [|c r]; cbn; try returned.
  rewrite code_not_EOF.
  destruct (code c =? 10) eqn:Enl.
  { cbn. rewrite Enl. cbn. destruct r as [|c2 r2]; cbn; try returned.
    rewrite code_not_EOF. returned. }
  destruct (code c =? 32) eqn:Esp.
  { cbn. rewrite Esp. cbn. destruct r as [|c2 r2]; cbn; try returned.
    rewrite code_not_EOF. destruct (code c2 =? 10) eqn:Enl2.
    - cbn. rewrite Enl2. cbn. destruct r2 as [|c3 r3]; cbn; try returned.
      rewrite code_not_EOF. returned.
    - returned. }
  destruct (extract _) as [value0 i'] eqn:Eex. cbn.
  destruct (fail i') eqn:Ef; cbn; try returned.
  destruct (VAL value0); cbn; returned.
Qed.

Lemma next_invalid (k : Tokenizer.t) :
  mIsValid k = false ->
  next k = (Throw (logic_error "Tokenizer is not valid anymore."), k).
Proof.
  intros Hv. unfold next, bind, gets, throw. rewrite Hv. reflexivity.
Qed.

(** A space that is followed by anything but a newline is a Space token. *)
Lemma next_on_space (c : ascii) (r : string) (l n : Pos) :
  code c <> code "010" ->
  next (Tokenizer.mk (IStream.mk (String " " (String c r)) false false) true l n) =
    (Ret (Token.mk Space T_init l n),
     Tokenizer.mk (IStream.mk (String c r) false false) true l (wrap64 (n + 1))).
Proof.
  intros Hc. apply Z.eqb_neq in Hc. run_members.
  rewrite code_not_EOF. cbn in Hc. rewrite Hc. reflexivity.
Qed.

Lemma next_on_value (c : ascii) (r : string) (l n : Pos) (v : T) (i' : istream) :
  code c <> code "010" -> code c <> code " " ->
  extract (IStream.mk (String c r) false false) = (v, i') ->
  fail i' = false -> VAL v = true ->
  next (Tokenizer.mk (IStream.mk (String c r) false false) true l n) =
    (Ret (of_value v l n), Tokenizer.mk i' true l (wrap64 (n + 1))).
Proof.
  intros Hnl Hsp Hex Hf Hv. apply Z.eqb_neq in Hnl, Hsp. run_members.
  rewrite code_not_EOF. cbn in Hnl, Hsp. rewrite Hnl, Hsp. cbn. rewrite Hex. cbn.
  rewrite Hf, Hv. reflexivity.
Qed.

Lemma next_on_last_newline (l n : Pos) :
  next (Tokenizer.mk (IStream.mk nl false false) true l n) =
    (Ret (Token.mk EndOfFile T_init l n),
     Tokenizer.mk (IStream.mk "" true true) false l n).
Proof.
  reflexivity.
Qed.

Lemma next_post_last k tok k' :
  next_post k tok k' ->
  mIsValid k' = negb (DiffChecker.is_last tok).
Proof.
  unfold next_post, DiffChecker.is_last, kind.
  intros (_ & _ & Hk). destruct (Token.mKind tok); cbn; tauto.
Qed.

Section Progress.
Context `{!ProfileOk T}.

Lemma next_progress k tok k' :
  next_post k tok k' -> mIsValid k' = true ->
  (String.length (unread k') < String.length (unread k))%nat.
Proof.
  unfold next_post, unread. intros (_ & _ & Hk) Hv.
  destruct (Token.mKind tok).
  - destruct Hk as (_ & _ & _ & Hin & Hf). rewrite Hin in *.
    now apply extract_progress.
  - tauto.
  - tauto.
  - destruct Hk as (Hk & _). congruence.
  - destruct Hk as (Hk & _). congruence.
Qed.

(** More fuel than unread characters: the run does not depend on it. *)
Lemma run_fuel (f1 f2 : nat) (k : Tokenizer.t) :
  mIsValid k = true ->
  (String.length (unread k) < f1)%nat ->
  (String.length (unread k) < f2)%nat ->
  run f1 k = run f2 k.
Proof.
  revert f2 k. induction f1 as [|f1 IH]; intros f2 k Hv H1 H2; [lia|].
  destruct f2 as [|f2]; [lia|]. cbn [run].
  destruct (next_valid k Hv) as (tok & k' & -> & Hpost).
  unfold isValid. destruct (mIsValid k') eqn:Hv'; [|reflexivity].
  pose proof (next_progress _ _ _ Hpost Hv') as Hlt.
  rewrite (IH f2 k') by (auto; lia). reflexivity.
Qed.

Lemma tokens_of_unfold k tok k' :
  mIsValid k = true -> next k = (Ret tok, k') ->
  tokens_of k = tok :: (if DiffChecker.is_last tok then [] else tokens_of k').
Proof.
  intros Hv Hn. unfold tokens_of at 1. cbn [run]. rewrite Hn.
  destruct (next_valid k Hv) as (tok0 & k0 & Hn0 & Hpost).
  rewrite Hn in Hn0. injection Hn0 as <- <-.
  pose proof (next_post_last _ _ _ Hpost) as Hl. unfold isValid.
  rewrite Hl. destruct (DiffChecker.is_last tok); cbn [negb fst]; [reflexivity|].
  assert (Hv' : mIsValid k' = true) by (rewrite Hl; reflexivity).
  pose proof (next_progress _ _ _ Hpost Hv') as Hlt. unfold unread in Hlt.
  rewrite (run_fuel (String.length (rdbuf (mInput k)))
             (S (String.length (rdbuf (mInput k')))) k')
    by (auto; unfold unread; lia).
  unfold tokens_of. destruct (run _ k'). reflexivity.
Qed.

(** Induction along the calls of [next()]. *)
Lemma tokenizer_ind (P : Tokenizer.t -> Prop) :
  (forall k, mIsValid k = true ->
     (forall tok k', next k = (Ret tok, k') -> next_post k tok k' ->
                     mIsValid k' = true -> P k') ->
     P k) ->
  forall k, mIsValid k = true -> P k.
Proof.
  intros Hstep k.
  remember (String.length (unread k)) as m eqn:Hm.
  revert k Hm. induction m as [m IH] using lt_wf_ind. intros k -> Hv.
  apply Hstep; [assumption|]. intros tok k' _ Hpost Hv'.
  apply (IH (String.length (unread k'))); auto.
  now apply (next_progress k tok k').
Qed.

Lemma tokens_of_head k tok :
  mIsValid k = true -> nth_error (tokens_of k) 0 = Some tok ->
  Token.mLine tok = mLine k /\ Token.mToken tok = mToken k.
Proof.
  intros Hv. destruct (next_valid k Hv) as (tok0 & k' & Hn & Hpost).
  rewrite (tokens_of_unfold _ _ _ Hv Hn). cbn. intros [= <-].
  destruct Hpost as (? & ? & _). auto.
Qed.

Lemma tokens_of_ended k : mIsValid k = true -> ended (tokens_of k).
Proof.
  revert k. apply tokenizer_ind. intros k Hv IH.
  destruct (next_valid k Hv) as (tok & k' & Hn & Hpost).
  rewrite (tokens_of_unfold _ _ _ Hv Hn).
  pose proof (next_post_last _ _ _ Hpost) as Hl.
  intros i t1 Hi Hlast. destruct (DiffChecker.is_last tok) eqn:Elast.
  - destruct i as [|[|i]]; cbn in *; congruence.
  - destruct i as [|i]; cbn in Hi.
    + congruence.
    + cbn. apply (IH tok k' Hn Hpost) with (tok := t1); auto.
Qed.

(** The sequence goes on after every token that is not the last. *)
Lemma tokens_of_continued k i tok :
  mIsValid k = true -> nth_error (tokens_of k) i = Some tok ->
  DiffChecker.is_last tok = false ->
  exists tok', nth_error (tokens_of k) (S i) = Some tok'.
Proof.
  intros Hv. revert k Hv i tok.
  apply (tokenizer_ind (fun k => forall i tok,
    nth_error (tokens_of k) i = Some tok -> DiffChecker.is_last tok = false ->
    exists tok', nth_error (tokens_of k) (S i) = Some tok')).
  intros k Hv IH i t1.
  destruct (next_valid k Hv) as (tok & k' & Hn & Hpost).
  rewrite (tokens_of_unfold _ _ _ Hv Hn).
  pose proof (next_post_last _ _ _ Hpost) as Hl.
  destruct (DiffChecker.is_last tok) eqn:Elast.
  - destruct i as [|[|i]]; cbn; intros; congruence.
  - assert (Hv' : mIsValid k' = true) by (rewrite Hl; reflexivity).
    destruct i as [|i]; cbn [nth_error].
    + intros _ _. destruct (next_valid k' Hv') as (t2 & k2 & Hn2 & _).
      rewrite (tokens_of_unfold _ _ _ Hv' Hn2). cbn. eauto.
    + apply (IH tok k' Hn Hpost Hv').
Qed.

(** The positions of two tokens in a row, as long as the counters do
    not wrap around. *)
Lemma tokens_of_positions k :
  mIsValid k = true ->
  0 <= mLine k -> 0 <= mToken k ->
  mLine k + Z.of_nat (String.length (unread k)) < 2 ^ 64 ->
  mToken k + Z.of_nat (String.length (unread k)) < 2 ^ 64 ->
  forall i t1 t2,
    nth_error (tokens_of k) i = Some t1 ->
    nth_error (tokens_of k) (S i) = Some t2 ->
    match Token.mKind t1 with
    | Newline => Token.mLine t2 = Token.mLine t1 + 1 /\ Token.mToken t2 = 1
    | Space | Valid =>
        Token.mLine t2 = Token.mLine t1 /\ Token.mToken t2 = Token.mToken t1 + 1
    | EndOfFile | Invalid => False
    end.
Proof.
  intros Hv. revert k Hv.
  apply (tokenizer_ind (fun k =>
    0 <= mLine k -> 0 <= mToken k ->
    mLine k + Z.of_nat (String.length (unread k)) < 2 ^ 64 ->
    mToken k + Z.of_nat (String.length (unread k)) < 2 ^ 64 ->
    forall i t1 t2,
      nth_error (tokens_of k) i = Some t1 ->
      nth_error (tokens_of k) (S i) = Some t2 ->
      match Token.mKind t1 with
      | Newline => Token.mLine t2 = Token.mLine t1 + 1 /\ Token.mToken t2 = 1
      | Space | Valid =>
          Token.mLine t2 = Token.mLine t1 /\ Token.mToken t2 = Token.mToken t1 + 1
      | EndOfFile | Invalid => False
      end)).
  intros k Hv IH Hl0 Hn0 Hl Hn i t1 t2.
  destruct (next_valid k Hv) as (tok & k' & Hnx & Hpost).
  rewrite (tokens_of_unfold _ _ _ Hv Hnx).
  pose proof (next_post_last _ _ _ Hpost) as Hlast.
  destruct (DiffChecker.is_last tok) eqn:Elast.
  { destruct i as [|i]; cbn; intros; congruence. }
  assert (Hv' : mIsValid k' = true) by (rewrite Hlast; reflexivity).
  pose proof (next_progress _ _ _ Hpost Hv') as Hlt.
  assert (Hw : forall z, 0 <= z -> z + 1 < 2 ^ 64 -> wrap64 (z + 1) = z + 1).
  { intros z Hz1 Hz2. unfold wrap64. apply Z.mod_small. lia. }
  destruct Hpost as (Hpl & Hpt & Hk).
  destruct i as [|i]; cbn [nth_error].
  - intros [= <-] H2. apply (tokens_of_head _ _ Hv') in H2.
    destruct H2 as [H2l H2t]. rewrite H2l, H2t, Hpl, Hpt.
    unfold DiffChecker.is_last, kind in Elast.
    destruct (Token.mKind tok); cbn in Elast; try discriminate.
    + destruct Hk as (_ & -> & -> & _). split; [reflexivity|]. apply Hw; lia.
    + destruct Hk as (_ & -> & -> & _). split; [reflexivity|]. apply Hw; lia.
    + destruct Hk as (_ & -> & -> & _). split; [|reflexivity]. apply Hw; lia.
  - apply (IH tok k' Hnx (conj Hpl (conj Hpt Hk)) Hv').
    all: unfold DiffChecker.is_last, kind in Elast.
    all: destruct (Token.mKind tok); cbn in Elast; try discriminate.
    all: destruct Hk as (_ & Hkl & Hkt & _); rewrite ?Hkl, ?Hkt.
    all: rewrite ?Hw by lia; lia.
Qed.

(** The tokens of a line of three one-character texts separated by single
    spaces. *)
Lemma tokens_of_three (x y z : ascii) (vx vy vz : T) :
  isspace x = false -> isspace y = false -> isspace z = false ->
  reads (String x "") vx -> reads (String y "") vy -> reads (String z "") vz ->
  tokens (String x (String " " (String y (String " " (String z nl))))) =
    [of_value vx 1 1; Token.mk Space T_init 1 2; of_value vy 1 3;
     Token.mk Space T_init 1 4; of_value vz 1 5; Token.mk EndOfFile T_init 1 6].
Proof.
  intros Hx Hy Hz [Vx Rx] [Vy Ry] [Vz Rz].
  assert (Hcode : forall c, isspace c = false ->
                    code c <> code "010" /\ code c <> code " ").
  { intros c Hc. unfold isspace in Hc. apply orb_false_iff in Hc.
    destruct Hc as [H1 H2]. apply Z.eqb_neq in H1.
    apply andb_false_iff in H2. cbn. split; [|exact H1].
    destruct H2 as [H2|H2]; [apply Z.leb_gt in H2|apply Z.leb_gt in H2]; lia. }
  destruct (Hcode x Hx) as [Hx1 Hx2]. destruct (Hcode y Hy) as [Hy1 Hy2].
  destruct (Hcode z Hz) as [Hz1 Hz2].
  unfold tokens, create, IStream.open.
  erewrite tokens_of_unfold;
    [|reflexivity
     |apply next_on_value;
      [assumption..|apply (Rx " "%char); reflexivity|reflexivity|exact Vx]].
  change (wrap64 (1 + 1)) with 2.
  erewrite tokens_of_unfold; [|reflexivity|apply next_on_space; assumption].
  change (wrap64 (2 + 1)) with 3.
  erewrite tokens_of_unfold;
    [|reflexivity
     |apply next_on_value;
      [assumption..|apply (Ry " "%char); reflexivity|reflexivity|exact Vy]].
  change (wrap64 (3 + 1)) with 4.
  erewrite tokens_of_unfold; [|reflexivity|apply next_on_space; assumption].
  change (wrap64 (4 + 1)) with 5.
  erewrite tokens_of_unfold;
    [|reflexivity
     |apply next_on_value;
      [assumption..|apply (Rz "010"%char); reflexivity|reflexivity|exact Vz]].
  change (wrap64 (5 + 1)) with 6.
  erewrite tokens_of_unfold; [|reflexivity|apply next_on_last_newline].
  reflexivity.
Qed.

End Progress.

End TokenizerFacts.

(** ** Facts about strings and lists *)

Lemma append_nil_r (s : string) : s ++ "" = s.
Proof.
  induction s as [|c s IH]; cbn; [reflexivity|]. now rewrite IH.
Qed.

Lemma append_assoc (a b c : string) : (a ++ b) ++ c = a ++ (b ++ c).
Proof.
  induction a as [|x a IH]; cbn; [reflexivity|]. now rewrite IH.
Qed.

Lemma bind_Ret {S A B} (m : M S A) (k : A -> M S B) (s s' : S) (a : A) :
  m s = (Ret a, s') -> bind m k s = k a s'.
Proof.
  intros E. unfold bind. rewrite E. reflexivity.
Qed.

Lemma firstn_snoc {A} (n : nat) (l : list A) (x : A) :
  nth_error l n = Some x -> firstn (S n) l = (firstn n l ++ [x])%list.
Proof.
  revert l. induction n as [|n IH]; intros [|y l]; cbn; try discriminate.
  - now intros [= ->].
  - intros E. cbn in IH. now rewrite (IH l E).
Qed.

Lemma last_cons {A} (a d : A) (l : list A) : last (a :: l) d = last l a.
Proof.
  revert a d. induction l as [|b l IH]; intros a d; [reflexivity|].
  change (last (a :: b :: l) d) with (last (b :: l) d).
  rewrite (IH b d), (IH b a). reflexivity.
Qed.

Lemma last_app_cons {A} (l es : list A) (c d : A) :
  last (l ++ c :: es) d = last es c.
Proof.
  revert d. induction l as [|a l IH]; intros d; cbn [app].
  - apply last_cons.
  - rewrite last_cons. apply IH.
Qed.

(** ** Facts about the grading loop *)

Section CheckerFacts.
Context {T : Type} `{Profile T} `{!ProfileOk T}.
Variable LookAhead : Z.
Variables ShowDiff ShowOutput : bool.

Import Token Tokenizer DiffChecker.

Lemma isEqual_kind (g c : Token.t T) :
  isEqual g c = true -> Token.mKind g = Token.mKind c.
Proof.
  unfold isEqual. destruct (Token.mKind g), (Token.mKind c); cbn; congruence.
Qed.

Lemma sstrs_cons (tok : Token.t T) (l : list (Token.t T)) :
  sstrs (tok :: l) = sstr tok ++ sstrs l.
Proof. reflexivity. Qed.

Lemma advance_S (n : nat) (k : Tokenizer.t) :
  advance (S n) k = advance n (snd (next k)).
Proof.
  unfold advance. apply Nat.iter_succ_r.
Qed.

Ltac run_checker :=
  unfold on_claimed, on_correct, buffer, print, eprint,
    bind, gets, modify, ret, throw, lift; cbn -[next].

(** The echo loop: it pulls the next [n] tokens of the claimed stream, or
    fewer when the stream ends first, and appends their short forms. *)
Lemma look_ahead_spec (n : nat) (tok : Token.t T) (r : Run) :
  (is_last tok = false -> mIsValid (claimed r) = true) ->
  let es := if is_last tok then [] else firstn n (tokens_of (claimed r)) in
  look_ahead n tok r =
    (Ret (last es tok),
     DiffChecker.mk (advance (List.length es) (claimed r)) (correct r)
       (checkerOutput r ++ sstrs es) (cout r) (cerr r)).
Proof.
  revert tok r. induction n as [|n IH]; intros tok r Hv es; subst es.
  - cbn. destruct (is_last tok); cbn; rewrite append_nil_r; now destruct r.
  - cbn [look_ahead]. destruct (is_last tok) eqn:Elast.
    + cbn. rewrite append_nil_r. now destruct r.
    + specialize (Hv eq_refl).
      destruct (next_valid _ Hv) as (t1 & k1 & Hn & Hpost).
      rewrite (tokens_of_unfold _ _ _ Hv Hn).
      pose proof (next_post_last _ _ _ Hpost) as Hl.
      cbn [firstn List.length]. rewrite last_cons, advance_S, Hn, sstrs_cons.
      cbn [snd]. rewrite <- append_assoc.
      replace (firstn n (if is_last t1 then [] else tokens_of k1))
        with (if is_last t1 then [] else firstn n (tokens_of k1))
        by (destruct (is_last t1); [now destruct n | reflexivity]).
      match goal with |- _ = ?R => set (rhs := R) end.
      run_checker. rewrite Hn. cbn -[next].
      rewrite IH; cbn -[next]; [reflexivity|].
      intros E. rewrite Hl, E. reflexivity.
Qed.

Lemma show_diff_spec h c g r :
  exists line,
    show_diff ShowDiff h c g r =
      (Ret tt, DiffChecker.mk (claimed r) (correct r) (checkerOutput r)
                 (cout r ++ "0|" ++ line) (cerr r)) /\
    (ShowDiff = true -> h = false -> "0|" ++ line = unexpected_line c g).
Proof.
  unfold show_diff, unexpected_line.
  destruct ShowDiff; [destruct h|]; run_checker; eexists; split;
    try reflexivity; intros; congruence.
Qed.

(** The code's choice of marker is [marker]. *)
Lemma marker_spec (tok : Token.t T) :
  (if Kind_eqb (kind tok) Invalid then "..?.."
   else if negb (Kind_eqb (kind tok) EndOfFile) then "....." else "")
  = marker tok.
Proof.
  unfold marker. destruct (kind tok); reflexivity.
Qed.

Lemma show_output_spec h c r :
  (is_last c = false -> mIsValid (claimed r) = true) ->
  show_output LookAhead ShowOutput h c r =
    (Ret tt,
     if ShowOutput then
       if h then
         DiffChecker.mk (claimed r) (correct r) (checkerOutput r)
           (cout r ++ "(Your output is intentionally hidden.)" ++ endl) (cerr r)
       else
         let es := echoed LookAhead c (claimed r) in
         let out := checkerOutput r ++ sstrs es ++ marker (last es c) in
         DiffChecker.mk (advance (List.length es) (claimed r)) (correct r) out
           (cout r ++ "Your output (as parsed):" ++ endl ++ out ++ endl) (cerr r)
     else r).
Proof.
  intros Hv. unfold show_output, echoed.
  destruct ShowOutput; [destruct h|]; try (run_checker; reflexivity).
  unfold bind at 1. unfold print at 1, modify at 1. unfold bind at 1.
  rewrite look_ahead_spec by exact Hv. cbn -[next].
  set (es := if is_last c then [] else firstn (Z.to_nat LookAhead) (tokens_of (claimed r))).
  rewrite <- marker_spec.
  destruct (Kind_eqb (kind (last es c)) Invalid);
    [|destruct (Kind_eqb (kind (last es c)) EndOfFile)];
    run_checker; rewrite ?append_assoc, ?append_nil_r; reflexivity.
Qed.

Lemma mismatch_branch_spec h c g r :
  (is_last c = false -> mIsValid (claimed r) = true) ->
  mismatch_branch LookAhead ShowDiff ShowOutput h c g r =
    (Ret (Some 0), report LookAhead ShowDiff ShowOutput h c g r).
Proof.
  intros Hv. unfold report, mismatch_branch.
  destruct (show_diff_spec h c g r) as (line & Hd & _).
  rewrite !(bind_Ret _ _ _ _ _ Hd).
  erewrite !bind_Ret by (apply show_output_spec; exact Hv). reflexivity.
Qed.

(** What the mismatch branch leaves behind. *)
Lemma report_spec h c g r :
  (is_last c = false -> mIsValid (claimed r) = true) ->
  let r' := report LookAhead ShowDiff ShowOutput h c g r in
  correct r' = correct r /\ cerr r' = cerr r /\
  exists line rest,
    cout r' = cout r ++ "0|" ++ line ++ rest /\
    (ShowDiff = true -> h = false -> "0|" ++ line = unexpected_line c g) /\
    (ShowOutput = false -> rest = "") /\
    (ShowOutput = true -> h = false ->
       let es := echoed LookAhead c (claimed r) in
       claimed r' = advance (List.length es) (claimed r) /\
       checkerOutput r' = checkerOutput r ++ sstrs es ++ marker (last es c) /\
       rest = "Your output (as parsed):" ++ endl ++ checkerOutput r' ++ endl).
Proof.
  intros Hv r'. subst r'. unfold report, mismatch_branch.
  destruct (show_diff_spec h c g r) as (line & Hd & Hline).
  rewrite (bind_Ret _ _ _ _ _ Hd).
  erewrite bind_Ret by (apply show_output_spec; exact Hv).
  unfold ret. cbn [snd].
  destruct ShowOutput; [destruct h|];
    cbn [claimed correct checkerOutput cout cerr].
  - split; [reflexivity|]. split; [reflexivity|]. exists line. eexists.
    rewrite !append_assoc.
    split; [reflexivity|]. split; [exact Hline|].
    split; intros; discriminate.
  - split; [reflexivity|]. split; [reflexivity|]. exists line. eexists.
    rewrite (append_assoc (cout r)), (append_assoc "0|").
    split; [reflexivity|]. split; [exact Hline|].
    split; [discriminate|]. intros _ _. cbn zeta. auto.
  - split; [reflexivity|]. split; [reflexivity|]. exists line, "".
    rewrite append_nil_r.
    split; [reflexivity|]. split; [exact Hline|].
    split; [reflexivity|discriminate].
Qed.

(** One turn of the loop on two valid tokenizers. *)
Lemma body_spec h r c kc g kg :
  next (claimed r) = (Ret c, kc) -> next (correct r) = (Ret g, kg) ->
  body LookAhead ShowDiff ShowOutput h r =
    if Kind_eqb (kind g) Invalid then
      (Ret (Some 1),
       DiffChecker.mk kc kg (checkerOutput r) (cout r)
         (cerr r ++ "Ground-truth file format is invalid." ++ endl))
    else
      let r1 := DiffChecker.mk kc kg (checkerOutput r ++ sstr c) (cout r) (cerr r) in
      if negb (isEqual g c) then
        mismatch_branch LookAhead ShowDiff ShowOutput h c g r1
      else if Kind_eqb (kind g) EndOfFile then
        (Ret (Some 0),
         DiffChecker.mk kc kg (checkerOutput r ++ sstr c)
           (cout r ++ "1|Correct output.") (cerr r))
      else (Ret None, r1).
Proof.
  intros Hc Hg. unfold body, mismatch_branch.
  unfold bind at 1. unfold on_claimed at 1. rewrite Hc.
  unfold bind at 1. unfold on_correct at 1. cbn [claimed correct]. rewrite Hg.
  destruct (Kind_eqb (kind g) Invalid); [run_checker; reflexivity|].
  unfold bind at 1. unfold buffer at 1, modify at 1.
  cbn [claimed correct checkerOutput cout cerr].
  destruct (negb (isEqual g c)); [reflexivity|].
  destruct (Kind_eqb (kind g) EndOfFile); run_checker; reflexivity.
Qed.

Lemma loop_verdict (fuel : nat) (h : bool) (r : Run) :
  mIsValid (claimed r) = true -> mIsValid (correct r) = true ->
  (String.length (unread (claimed r)) < fuel)%nat ->
  exists d,
    verdict (tokens_of (claimed r)) (tokens_of (correct r)) = Some d /\
    loop LookAhead ShowDiff ShowOutput fuel h r =
      Some (outcome LookAhead ShowDiff ShowOutput h r d).
Proof.
  revert r. induction fuel as [|fuel IH]; intros r Hvc Hvg Hlen; [lia|].
  destruct (next_valid _ Hvc) as (c & kc & Hc & Hpc).
  destruct (next_valid _ Hvg) as (g & kg & Hg & Hpg).
  rewrite (tokens_of_unfold _ _ _ Hvc Hc), (tokens_of_unfold _ _ _ Hvg Hg).
  cbn [loop verdict]. rewrite (body_spec h r c kc g kg Hc Hg).
  pose proof (next_post_last _ _ _ Hpc) as Hlc.
  pose proof (next_post_last _ _ _ Hpg) as Hlg.
  assert (Hone : forall x : Tokenizer.t, advance 1 x = snd (next x)) by reflexivity.
  destruct (Kind_eqb (kind g) Invalid) eqn:Einv.
  { eexists; split; [reflexivity|]. unfold outcome.
    rewrite !Hone, Hc, Hg. cbn [firstn sstrs fold_right snd].
    rewrite append_nil_r. reflexivity. }
  destruct (isEqual g c) eqn:Eeq; cbn [negb].
  2:{ eexists; split; [reflexivity|]. unfold outcome, at_pair.
      rewrite mismatch_branch_spec.
      - rewrite !Hone, Hc, Hg, (tokens_of_unfold _ _ _ Hvc Hc).
        cbn [firstn sstrs fold_right snd]. rewrite append_nil_r. reflexivity.
      - cbn [claimed]. intros E. rewrite Hlc, E. reflexivity. }
  destruct (Kind_eqb (kind g) EndOfFile) eqn:Eeof.
  { eexists; split; [reflexivity|]. unfold outcome, at_pair.
    cbn [claimed correct checkerOutput cout cerr].
    rewrite !Hone, Hc, Hg, (tokens_of_unfold _ _ _ Hvc Hc).
    cbn [firstn sstrs fold_right snd]. rewrite append_nil_r. reflexivity. }
  assert (Hng : is_last g = false).
  { unfold is_last. rewrite Einv, Eeof. reflexivity. }
  assert (Hnc : is_last c = false).
  { unfold is_last, kind in *. rewrite <- (isEqual_kind _ _ Eeq). exact Hng. }
  rewrite Hng, Hnc. rewrite Hng in Hlg. rewrite Hnc in Hlc.
  set (r1 := DiffChecker.mk kc kg (checkerOutput r ++ sstr c) (cout r) (cerr r)).
  destruct (IH r1) as ([n v] & Hv & Hloop); cbn [r1 claimed correct]; auto.
  { pose proof (next_progress _ _ _ Hpc Hlc). lia. }
  cbn [r1 claimed correct] in Hv. rewrite Hv, Hloop.
  eexists; split; [reflexivity|]. f_equal.
  unfold outcome, at_pair. cbn [r1 claimed correct checkerOutput cout cerr].
  rewrite (advance_S (S n)), (advance_S (S n) (correct r)), Hc, Hg.
  cbn [snd]. rewrite (tokens_of_unfold _ _ _ Hvc Hc), Hnc.
  destruct v; cbn [firstn]; rewrite ?sstrs_cons, ?append_assoc; reflexivity.
Qed.

End CheckerFacts.

(** ** The verdict in terms of the token pairs *)

Section VerdictFacts.
Context {T : Type} `{Profile T}.

Import Token DiffChecker.

Lemma agree_cons (c g : Token.t T) (cs gs : list (Token.t T)) (n : nat) :
  agree (c :: cs) (g :: gs) (S n) <-> isEqual g c = true /\ agree cs gs n.
Proof.
  unfold agree. split.
  - intros Ha. split.
    + destruct (Ha O) as (c0 & g0 & [= <-] & [= <-] & E); [lia|exact E].
    + intros i Hi. apply (Ha (S i)). lia.
  - intros [E Ha] [|i] Hi.
    + exists c, g. auto.
    + apply Ha. lia.
Qed.

Lemma ended_tail (g : Token.t T) (gs : list (Token.t T)) :
  ended (g :: gs) -> ended gs.
Proof.
  intros He i tok Hi Hl. apply (He (S i) tok); assumption.
Qed.

Lemma ended_head (g g' : Token.t T) (gs : list (Token.t T)) :
  ended (g :: g' :: gs) -> is_last g = false.
Proof.
  intros He. destruct (is_last g) eqn:E; [|reflexivity].
  specialize (He O g eq_refl E). discriminate.
Qed.

Lemma is_last_kind (g : Token.t T) :
  is_last g = false ->
  Kind_eqb (kind g) Invalid = false /\ Kind_eqb (kind g) EndOfFile = false.
Proof.
  unfold is_last. destruct (kind g); cbn; auto; discriminate.
Qed.

Lemma continued_tail (c : Token.t T) (cs : list (Token.t T)) :
  continued (c :: cs) -> is_last c = false -> continued cs.
Proof.
  intros [_ Hc] Hl. split.
  - intros ->. apply (Hc O c eq_refl Hl). reflexivity.
  - intros i tok Hi Ht. apply (Hc (S i) tok); assumption.
Qed.

Lemma verdict_Correct (cs gs : list (Token.t T)) (n : nat) :
  ended gs ->
  (verdict cs gs = Some (n, Correct) <->
   agree cs gs (S n) /\
   exists g, nth_error gs n = Some g /\ kind g = EndOfFile).
Proof.
  intros He. split.
  - revert gs n He. induction cs as [|c cs IH]; intros [|g gs] n He; cbn;
      try discriminate.
    destruct (Kind_eqb (kind g) Invalid) eqn:Einv; [discriminate|].
    destruct (isEqual g c) eqn:Eeq; cbn; [|discriminate].
    destruct (Kind_eqb (kind g) EndOfFile) eqn:Eeof.
    + intros [= <-]. split.
      * apply agree_cons. split; [exact Eeq|]. intros i Hi. lia.
      * exists g. split; [reflexivity|]. destruct (kind g); cbn in *; congruence.
    + destruct (verdict cs gs) as [[m v]|] eqn:Ev; [|discriminate].
      intros [= <- ->]. destruct (IH gs m (ended_tail _ _ He) Ev) as [Ha Hg].
      split; [|exact Hg]. apply agree_cons. auto.
  - revert cs gs He. induction n as [|n IH]; intros cs gs He [Ha (g0 & Hg0 & Hk)].
    + destruct (Ha O) as (c & g & Hc & Hg & Eeq); [lia|].
      destruct cs as [|c' cs]; [discriminate|]. destruct gs as [|g' gs]; [discriminate|].
      cbn in Hc, Hg, Hg0. injection Hc as ->. injection Hg as ->. injection Hg0 as ->.
      cbn. rewrite Hk, Eeq. reflexivity.
    + destruct cs as [|c cs]; [destruct (Ha O) as (? & ? & Hc & _); [lia|discriminate]|].
      destruct gs as [|g gs]; [discriminate|].
      apply agree_cons in Ha. destruct Ha as [Eeq Ha]. cbn in Hg0.
      assert (Hl : is_last g = false).
      { destruct gs as [|g' gs]; [destruct n; discriminate|]. exact (ended_head _ _ _ He). }
      destruct (is_last_kind _ Hl) as [Einv Eeof].
      cbn. rewrite Einv, Eeq, Eeof. cbn.
      rewrite (IH cs gs (ended_tail _ _ He)); [reflexivity|].
      split; [exact Ha|]. exists g0. auto.
Qed.

Lemma verdict_Mismatch (cs gs : list (Token.t T)) (n : nat) (c g : Token.t T) :
  ended gs ->
  (verdict cs gs = Some (n, Mismatch c g) <->
   agree cs gs n /\ nth_error cs n = Some c /\ nth_error gs n = Some g /\
   isEqual g c = false /\ kind g <> Invalid).
Proof.
  intros He. split.
  - revert gs n He. induction cs as [|c0 cs IH]; intros [|g0 gs] n He; cbn;
      try discriminate.
    destruct (Kind_eqb (kind g0) Invalid) eqn:Einv; [discriminate|].
    destruct (isEqual g0 c0) eqn:Eeq; cbn.
    + destruct (Kind_eqb (kind g0) EndOfFile) eqn:Eeof; [discriminate|].
      destruct (verdict cs gs) as [[m v]|] eqn:Ev; [|discriminate].
      intros [= <- ->]. destruct (IH gs m (ended_tail _ _ He) Ev) as (Ha & Hc & Hg & E & K).
      split; [apply agree_cons; auto|]. cbn. auto.
    + intros [= <- <- <-]. split; [intros i Hi; lia|]. cbn.
      repeat (split; [reflexivity || assumption|]).
      intros K. rewrite K in Einv. discriminate.
  - revert cs gs He. induction n as [|n IH];
      intros cs gs He (Ha & Hc & Hg & Eeq & K).
    + destruct cs as [|c' cs]; [discriminate|]. destruct gs as [|g' gs]; [discriminate|].
      cbn in Hc, Hg. injection Hc as ->. injection Hg as ->.
      cbn. rewrite Eeq. destruct (kind g); cbn; congruence.
    + destruct cs as [|c0 cs]; [discriminate|].
      destruct gs as [|g0 gs]; [discriminate|].
      apply agree_cons in Ha. destruct Ha as [Eeq0 Ha]. cbn in Hc, Hg.
      assert (Hl : is_last g0 = false).
      { destruct gs as [|g' gs]; [destruct n; discriminate|]. exact (ended_head _ _ _ He). }
      destruct (is_last_kind _ Hl) as [Einv Eeof].
      cbn. rewrite Einv, Eeq0, Eeof. cbn.
      rewrite (IH cs gs (ended_tail _ _ He)); [reflexivity|]. auto.
Qed.

Lemma verdict_BadGroundTruth (cs gs : list (Token.t T)) (n : nat) :
  ended gs -> continued cs ->
  (verdict cs gs = Some (n, BadGroundTruth) <->
   agree cs gs n /\
   exists g, nth_error gs n = Some g /\ kind g = Invalid).
Proof.
  intros He Hc. split.
  - clear Hc. revert gs n He. induction cs as [|c0 cs IH]; intros [|g0 gs] n He; cbn;
      try discriminate.
    destruct (Kind_eqb (kind g0) Invalid) eqn:Einv.
    + intros [= <-]. split; [intros i Hi; lia|]. exists g0. split; [reflexivity|].
      destruct (kind g0); cbn in *; congruence.
    + destruct (isEqual g0 c0) eqn:Eeq; cbn; [|discriminate].
      destruct (Kind_eqb (kind g0) EndOfFile) eqn:Eeof; [discriminate|].
      destruct (verdict cs gs) as [[m v]|] eqn:Ev; [|discriminate].
      intros [= <- ->]. destruct (IH gs m (ended_tail _ _ He) Ev) as (Ha & Hg).
      split; [apply agree_cons; auto|]. exact Hg.
  - revert cs gs He Hc. induction n as [|n IH];
      intros cs gs He Hc (Ha & g & Hg & K).
    + destruct cs as [|c' cs]; [destruct Hc as [Hc _]; congruence|].
      destruct gs as [|g' gs]; [discriminate|].
      cbn in Hg. injection Hg as ->. cbn. rewrite K. reflexivity.
    + destruct cs as [|c0 cs]; [destruct Hc as [Hc _]; congruence|].
      destruct gs as [|g0 gs]; [discriminate|].
      apply agree_cons in Ha. destruct Ha as [Eeq0 Ha]. cbn in Hg.
      assert (Hl : is_last g0 = false).
      { destruct gs as [|g' gs]; [destruct n; discriminate|]. exact (ended_head _ _ _ He). }
      destruct (is_last_kind _ Hl) as [Einv Eeof].
      assert (Hlc : is_last c0 = false).
      { unfold is_last, kind in *.
        unfold isEqual in Eeq0.
        destruct (Token.mKind g0), (Token.mKind c0); cbn in *; congruence. }
      cbn. rewrite Einv, Eeq0, Eeof. cbn.
      rewrite (IH cs gs (ended_tail _ _ He) (continued_tail _ _ Hc Hlc)); [reflexivity|].
      split; [exact Ha|]. exists g. auto.
Qed.

End VerdictFacts.

(** ** The whole comparison *)

Section CompareFacts.
Context {T : Type} `{Profile T} `{!ProfileOk T}.
Variable LookAhead : Z.
Variables ShowDiff ShowOutput : bool.

Import Token Tokenizer DiffChecker.

Lemma tokens_of_continues (k : Tokenizer.t) :
  mIsValid k = true -> continued (tokens_of k).
Proof.
  intros Hv. split.
  - destruct (next_valid k Hv) as (tok & k' & Hn & _).
    rewrite (tokens_of_unfold _ _ _ Hv Hn). discriminate.
  - intros i tok Hi Hl.
    destruct (tokens_of_continued k i tok Hv Hi Hl) as (tok' & ->). discriminate.
Qed.

(** Calling [next()] [m] times walks along the token sequence. *)
Lemma advance_tokens (m : nat) (k : Tokenizer.t) :
  mIsValid k = true -> (m < List.length (tokens_of k))%nat ->
  mIsValid (advance m k) = true /\
  tokens_of (advance m k) = skipn m (tokens_of k).
Proof.
  revert k. induction m as [|m IH]; intros k Hv Hm.
  - split; [exact Hv|reflexivity].
  - destruct (next_valid k Hv) as (tok & k' & Hn & Hpost).
    rewrite (tokens_of_unfold _ _ _ Hv Hn) in Hm |- *.
    rewrite advance_S, Hn. cbn [snd skipn].
    pose proof (next_post_last _ _ _ Hpost) as Hl.
    destruct (is_last tok); cbn in Hm; [lia|].
    apply IH; [rewrite Hl; reflexivity | lia].
Qed.

Lemma advance_next (n : nat) (k : Tokenizer.t) (tok : Token.t T) :
  mIsValid k = true -> nth_error (tokens_of k) n = Some tok ->
  mIsValid (advance (S n) k) = negb (is_last tok) /\
  tokens_of k = (firstn (S n) (tokens_of k)
                 ++ (if is_last tok then [] else tokens_of (advance (S n) k)))%list.
Proof.
  intros Hv Hn.
  assert (Hlen : (n < List.length (tokens_of k))%nat).
  { apply nth_error_Some. congruence. }
  destruct (advance_tokens n k Hv Hlen) as [Hvn Htn].
  destruct (next_valid _ Hvn) as (t1 & k1 & Hnx & Hpost).
  pose proof (tokens_of_unfold _ _ _ Hvn Hnx) as Hu. rewrite Htn in Hu.
  assert (Ht1 : t1 = tok).
  { assert (E : nth_error (skipn n (tokens_of k)) 0 = Some tok)
      by (rewrite nth_error_skipn, Nat.add_0_r; exact Hn).
    rewrite Hu in E. cbn in E. congruence. }
  subst t1.
  assert (Hadv : advance (S n) k = k1).
  { change (advance (S n) k) with (snd (next (advance n k))).
    rewrite Hnx. reflexivity. }
  rewrite Hadv. split; [exact (next_post_last _ _ _ Hpost)|].
  rewrite <- (firstn_skipn n (tokens_of k)) at 1.
  rewrite Hu. rewrite (firstn_snoc n (tokens_of k) tok Hn).
  rewrite <- app_assoc. reflexivity.
Qed.

Lemma advance_add (a b : nat) (k : Tokenizer.t) :
  advance a (advance b k) = advance (a + b) k.
Proof.
  unfold advance. symmetry. apply Nat.iter_add.
Qed.

Lemma sstrs_app (l1 l2 : list (Token.t T)) :
  sstrs (l1 ++ l2)%list = sstrs l1 ++ sstrs l2.
Proof.
  induction l1 as [|t1 l1 IH]; [reflexivity|].
  cbn [app]. rewrite !sstrs_cons, IH, append_assoc. reflexivity.
Qed.

Lemma tokens_valid (content : string) :
  mIsValid (create (IStream.open (Some content))) = true /\
  unread (create (IStream.open (Some content))) = content.
Proof.
  split; reflexivity.
Qed.

(** The comparison always returns, with the outcome the verdict names. *)
Lemma compare_outcome (h : bool) (cc gc : string) :
  exists d,
    verdict (tokens cc) (tokens gc) = Some d /\
    compare LookAhead ShowDiff ShowOutput h
      (IStream.open (Some cc)) (IStream.open (Some gc)) =
    Some (outcome LookAhead ShowDiff ShowOutput h
            (start (IStream.open (Some cc)) (IStream.open (Some gc))) d).
Proof.
  unfold compare, tokens.
  apply (loop_verdict LookAhead ShowDiff ShowOutput
           (S (String.length (rdbuf (IStream.open (Some cc))))) h
           (start (IStream.open (Some cc)) (IStream.open (Some gc))));
    cbn; auto.
Qed.

(** The comparison that meets its first unequal pair at index [n]. *)
Lemma compare_mismatch (h : bool) (cc gc : string) (n : nat) (c g : Token.t T) :
  agree (tokens cc) (tokens gc) n ->
  nth_error (tokens cc) n = Some c -> nth_error (tokens gc) n = Some g ->
  isEqual g c = false -> kind g <> Invalid ->
  exists r',
    compare LookAhead ShowDiff ShowOutput h
      (IStream.open (Some cc)) (IStream.open (Some gc)) = Some (Ret 0, r') /\
    correct r' = advance (S n) (create (IStream.open (Some gc))) /\
    cerr r' = "" /\
    exists line rest,
      cout r' = "0|" ++ line ++ rest /\
      (ShowDiff = true -> h = false -> "0|" ++ line = unexpected_line c g) /\
      (ShowOutput = false -> rest = "") /\
      (ShowOutput = true -> h = false ->
         let pulled := firstn (S n + Z.to_nat LookAhead) (tokens cc) in
         claimed r' = advance (List.length pulled) (create (IStream.open (Some cc))) /\
         checkerOutput r' = sstrs pulled ++ marker (last pulled c) /\
         rest = "Your output (as parsed):" ++ endl ++ checkerOutput r' ++ endl).
Proof.
  intros Ha Hc Hg Eeq Hk.
  destruct (compare_outcome h cc gc) as (d & Hd & Hcmp).
  pose proof (tokens_of_ended _ (proj1 (tokens_valid gc))) as He.
  assert (Hv : verdict (tokens cc) (tokens gc) = Some (n, Mismatch c g))
    by (apply verdict_Mismatch; auto).
  rewrite Hv in Hd. injection Hd as <-. cbn [outcome] in Hcmp.
  unfold tokens in *.
  set (r0 := start (IStream.open (Some cc)) (IStream.open (Some gc))) in *.
  set (k0 := create (IStream.open (Some cc))) in *.
  destruct (advance_next n k0 c eq_refl Hc) as [Hvn Hsplit].
  assert (Hpre : is_last c = false -> mIsValid (claimed (at_pair n r0)) = true).
  { intros E. cbn [at_pair claimed r0 start]. fold k0. rewrite Hvn, E. reflexivity. }
  destruct (report_spec LookAhead ShowDiff ShowOutput h c g (at_pair n r0) Hpre)
    as (Hcor & Herr & line & rest & Hout & Hline & Hrest & Hecho).
  eexists. split; [exact Hcmp|].
  split; [rewrite Hcor; reflexivity|]. split; [rewrite Herr; reflexivity|].
  exists line, rest. split; [rewrite Hout; reflexivity|].
  split; [exact Hline|]. split; [exact Hrest|].
  intros Hso Hh. specialize (Hecho Hso Hh). cbn zeta in Hecho |- *.
  destruct Hecho as (Hcl & Hbuf & Hr).
  set (es := echoed LookAhead c (claimed (at_pair n r0))) in *.
  assert (Hes : es = if is_last c then []
                     else firstn (Z.to_nat LookAhead) (tokens_of (advance (S n) k0))).
  { reflexivity. }
  assert (Hlen : (S n <= List.length (tokens_of k0))%nat).
  { apply Nat.le_succ_l. apply nth_error_Some. congruence. }
  assert (Hpulled : firstn (S n + Z.to_nat LookAhead) (tokens_of k0)
                    = (firstn (S n) (tokens_of k0) ++ es)%list).
  { rewrite Hsplit at 1.
    rewrite <- (firstn_length_le (tokens_of k0) Hlen) at 1.
    rewrite firstn_app_2, Hes.
    destruct (is_last c); [now destruct (Z.to_nat LookAhead)|reflexivity]. }
  rewrite Hpulled. rewrite length_app, firstn_length_le by exact Hlen.
  rewrite (firstn_snoc n (tokens_of k0) c Hc), <- app_assoc. cbn [app].
  rewrite last_app_cons.
  change (firstn n (tokens_of k0) ++ c :: es)%list
    with (firstn n (tokens_of k0) ++ [c] ++ es)%list.
  rewrite app_assoc, <- (firstn_snoc n (tokens_of k0) c Hc).
  split; [|split].
  - rewrite Hcl. cbn [at_pair claimed r0 start]. fold k0.
    rewrite advance_add. f_equal. lia.
  - rewrite Hbuf, sstrs_app. cbn [at_pair checkerOutput r0 start claimed].
    fold k0. rewrite !append_assoc. reflexivity.
  - exact Hr.
Qed.

End CompareFacts.

(** ** The character profile extracts with progress *)

Lemma skipws_length (s : string) :
  (String.length (skipws s) <= String.length s)%nat.
Proof.
  induction s as [|c s IH]; cbn; [lia|].
  destruct (isspace c); cbn; lia.
Qed.

Lemma char_profile_ok : @ProfileOk ascii DiffCheckerChar.profile.
Proof.
  constructor. intros [buf e f]. cbn. unfold extract_char, fail. cbn.
  destruct (good _); cbn; [|discriminate].
  pose proof (skipws_length buf) as Hs.
  destruct (skipws buf) as [|c r]; cbn in *; [discriminate|]. intros _. lia.
Qed.

(** ** Token *)

(** C3 (as amended).  For every token, the short form is the textual form
    of the value for a Valid token, a newline character for Newline and a
    space for Space; for EndOfFile it is the text [<end>] and for Invalid
    the text [<invalid-format>], the same as in the long form. *)
Theorem sstr_by_kind {T : Type} `{Profile T} (tok : Token.t T) :
  Token.sstr tok =
    match Token.kind tok with
    | Token.Valid => insert (Token.mValue tok)
    | Token.Newline => nl
    | Token.Space => " "
    | Token.EndOfFile => "<end>"
    | Token.Invalid => "<invalid-format>"
    end.
Proof.
  unfold Token.sstr, Token.kind. destruct (Token.mKind tok); reflexivity.
Qed.

(** C3 as stated fails: the short form of the EndOfFile token the tokenizer
    returns on an empty stream is [<end>], not the empty string. *)
Lemma sstr_EndOfFile_not_empty :
  Tokenizer.tokens "" = [Token.mk Token.EndOfFile zero 1 1] /\
  Token.sstr (Token.mk Token.EndOfFile zero 1 1) = "<end>" /\
  Token.sstr (Token.mk Token.EndOfFile zero 1 1) <> "" /\
  Token.sstr (Token.mk Token.Invalid zero 1 1) = "<invalid-format>".
Proof.
  repeat split; try reflexivity. discriminate.
Qed.

(** ** Tokenizer *)

(** C4.  The streams [a], space, newline and [a], newline give the same
    tokens: the Valid token of [a] at line 1, token 1, then EndOfFile. *)
Theorem trailing_whitespace_collapses :
  Tokenizer.tokens ("a " ++ nl) =
    [Token.of_value "a"%char 1 1; Token.mk Token.EndOfFile zero 1 2] /\
  Tokenizer.tokens ("a" ++ nl) =
    [Token.of_value "a"%char 1 1; Token.mk Token.EndOfFile zero 1 2].
Proof.
  split; reflexivity.
Qed.

(** C6.  On a stream shorter than 2^64 - 1 characters, read with an
    extraction operator that takes a character whenever it succeeds, the
    line numbers of successive tokens never decrease; the token after a
    Newline token has token index 1; the token after a Valid or Space token
    is on the same line with a strictly greater token index. *)
Theorem positions_of_successive_tokens {T : Type} `{Profile T} `{!ProfileOk T}
    (content : string) (i : nat) (t1 t2 : Token.t T) :
  Z.of_nat (String.length content) < 2 ^ 64 - 1 ->
  nth_error (Tokenizer.tokens content) i = Some t1 ->
  nth_error (Tokenizer.tokens content) (S i) = Some t2 ->
  Token.line t1 <= Token.line t2 /\
  (Token.kind t1 = Token.Newline -> Token.token t2 = 1) /\
  (Token.kind t1 = Token.Valid \/ Token.kind t1 = Token.Space ->
     Token.line t2 = Token.line t1 /\ Token.token t1 < Token.token t2).
Proof.
  intros Hlen H1 H2.
  pose proof (tokens_of_positions (Tokenizer.create (IStream.open (Some content)))
                eq_refl) as Hp.
  unfold unread, Tokenizer.create, IStream.open in Hp.
  cbn [Tokenizer.mLine Tokenizer.mToken Tokenizer.mInput rdbuf] in Hp.
  specialize (Hp ltac:(lia) ltac:(lia) ltac:(lia) ltac:(lia) i t1 t2 H1 H2).
  unfold Token.line, Token.token, Token.kind.
  destruct (Token.mKind t1); try contradiction; destruct Hp as [Hl Ht];
    (split; [lia|]); (split; [intros; try discriminate; assumption|]);
    intros [E|E]; try discriminate; split; lia.
Qed.

(** The first two tokens of the stream [a b], newline, [c] under the
    character profile. *)
Lemma positions_of_successive_tokens_witness :
  Z.of_nat (String.length ("a b" ++ nl ++ "c")) < 2 ^ 64 - 1 /\
  nth_error (Tokenizer.tokens ("a b" ++ nl ++ "c")) 0 = Some (Token.of_value "a"%char 1 1) /\
  nth_error (Tokenizer.tokens ("a b" ++ nl ++ "c")) 1 = Some (Token.mk Token.Space zero 1 2) /\
  Token.line (Token.of_value "a"%char 1 1) <= Token.line (Token.mk Token.Space zero 1 2) /\
  (Token.kind (Token.of_value "a"%char 1 1) = Token.Newline ->
     Token.token (Token.mk Token.Space zero 1 2) = 1) /\
  (Token.kind (Token.of_value "a"%char 1 1) = Token.Valid \/
   Token.kind (Token.of_value "a"%char 1 1) = Token.Space ->
     Token.line (Token.mk Token.Space zero 1 2) = Token.line (Token.of_value "a"%char 1 1) /\
     Token.token (Token.of_value "a"%char 1 1) < Token.token (Token.mk Token.Space zero 1 2)).
Proof.
  assert (Hlen : Z.of_nat (String.length ("a b" ++ nl ++ "c")) < 2 ^ 64 - 1)
    by (vm_compute; reflexivity).
  split; [exact Hlen|]. split; [reflexivity|]. split; [reflexivity|].
  exact (@positions_of_successive_tokens ascii DiffCheckerChar.profile
           char_profile_ok ("a b" ++ nl ++ "c") 0 _ _ Hlen eq_refl eq_refl).
Defined.

(** C7.  A call of [next()] on a valid tokenizer returns a token, and
    leaves the tokenizer invalid exactly when that token is EndOfFile or
    Invalid.  On a tokenizer that is not valid, this call and every later
    one throws the logic error and changes nothing. *)
Theorem validity_flag {T : Type} `{Profile T} (k : Tokenizer.t) :
  (Tokenizer.isValid k = true ->
     exists tok k', Tokenizer.next k = (Ret tok, k') /\
       (Tokenizer.isValid k' = false <->
        Token.kind tok = Token.EndOfFile \/ Token.kind tok = Token.Invalid)) /\
  (Tokenizer.isValid k = false ->
     forall n : nat,
       advance n k = k /\
       Tokenizer.next (T := T) (advance n k) =
         (Throw (logic_error "Tokenizer is not valid anymore."), k)).
Proof.
  split.
  - intros Hv. destruct (next_valid k Hv) as (tok & k' & Hn & Hpost).
    exists tok, k'. split; [exact Hn|].
    pose proof (next_post_last _ _ _ Hpost) as Hl. unfold Tokenizer.isValid.
    rewrite Hl. unfold DiffChecker.is_last.
    destruct (Token.kind tok); cbn; split; auto; try discriminate;
      intros [E|E]; discriminate.
  - intros Hv n.
    assert (Ha : advance n k = k).
    { induction n as [|n IH]; [reflexivity|].
      change (advance (S n) k) with (snd (Tokenizer.next (T := T) (advance n k))).
      rewrite IH, (next_invalid k Hv). reflexivity. }
    rewrite Ha. split; [reflexivity|]. exact (next_invalid k Hv).
Qed.

(** A tokenizer on the stream [a], and the tokenizer left behind by an
    EndOfFile token. *)
Lemma validity_flag_witness :
  (exists (tok : Token.t ascii) k',
     Tokenizer.next (Tokenizer.create (IStream.open (Some "a"))) = (Ret tok, k') /\
     (Tokenizer.isValid k' = false <->
      Token.kind tok = Token.EndOfFile \/ Token.kind tok = Token.Invalid)) /\
  (forall n : nat,
     advance (T := ascii) n (Tokenizer.mk (IStream.mk "" true true) false 1 2) =
       Tokenizer.mk (IStream.mk "" true true) false 1 2 /\
     Tokenizer.next (T := ascii)
       (advance (T := ascii) n (Tokenizer.mk (IStream.mk "" true true) false 1 2)) =
       (Throw (logic_error "Tokenizer is not valid anymore."),
        Tokenizer.mk (IStream.mk "" true true) false 1 2)).
Proof.
  split.
  - apply (proj1 (@validity_flag ascii DiffCheckerChar.profile
                    (Tokenizer.create (IStream.open (Some "a"))))).
    reflexivity.
  - apply (proj2 (@validity_flag ascii DiffCheckerChar.profile
                    (Tokenizer.mk (IStream.mk "" true true) false 1 2))).
    reflexivity.
Defined.

(** C10.  The code on the stream tab, space, [a], under the character
    profile.  The first call of [next()] peeks the tab and goes to the last
    branch, where [mInput >> value] skips the tab and the space before it
    reads [a]: the call returns the Valid token of [a] and leaves the stream
    empty.  The space, which is followed by [a], gets no Space token, though
    the same space and [a] without the tab give one. *)
Theorem space_after_tab_is_swallowed :
  Tokenizer.next (T := ascii) (Tokenizer.create (IStream.open (Some (String "009" " a"))))
    = (Ret (Token.of_value "a"%char 1 1),
       Tokenizer.mk (IStream.mk "" false false) true 1 2) /\
  Tokenizer.tokens (String "009" " a") =
    [Token.of_value "a"%char 1 1; Token.mk Token.EndOfFile zero 1 2] /\
  Tokenizer.tokens " a" =
    [Token.mk Token.Space zero 1 1; Token.of_value "a"%char 1 2;
     Token.mk Token.EndOfFile zero 1 3].
Proof.
  split; [|split]; vm_compute; reflexivity.
Qed.

(** ** The equality predicates *)

Lemma sub_diag (a : DiffCheckerReal.long_double) :
  DiffCheckerReal.isfinite a = true ->
  exists s, DiffCheckerReal.sub a a = S754_zero s.
Proof.
  destruct a as [s|s| |s m e]; cbn; try discriminate; intros _.
  - destruct s; eexists; reflexivity.
  - exists false. unfold DiffCheckerReal.sub, SFsub.
    rewrite Z.sub_diag. reflexivity.
Qed.

(** C5 (as amended).  The character predicate is reflexive and symmetric.
    The real predicate holds of every finite value and itself, and it holds
    both ways round whenever the two differences pass the absolute test;
    the 1% test is relative to the first operand only. *)
Theorem eq_reflexive_and_symmetric_where_it_is :
  (forall c : ascii, DiffCheckerChar.eq c c = true) /\
  (forall a b : ascii, DiffCheckerChar.eq a b = DiffCheckerChar.eq b a) /\
  (forall a : DiffCheckerReal.long_double,
     DiffCheckerReal.isfinite a = true -> DiffCheckerReal.eq a a = true) /\
  (forall a b : DiffCheckerReal.long_double,
     DiffCheckerReal.le (DiffCheckerReal.sub a b) (DiffCheckerReal.literal 1 100000)
     && DiffCheckerReal.le (DiffCheckerReal.sub b a) (DiffCheckerReal.literal 1 100000) = true ->
     DiffCheckerReal.eq a b = true /\ DiffCheckerReal.eq b a = true).
Proof.
  split; [|split; [|split]].
  - intros c. unfold DiffCheckerChar.eq. apply Z.eqb_refl.
  - intros a b. unfold DiffCheckerChar.eq. apply Z.eqb_sym.
  - intros a Ha. unfold DiffCheckerReal.eq.
    destruct (sub_diag a Ha) as [s ->].
    replace (DiffCheckerReal.le (S754_zero s) (DiffCheckerReal.literal 1 100000)) with true
      by (destruct s; vm_compute; reflexivity).
    reflexivity.
  - intros a b Hab. unfold DiffCheckerReal.eq. rewrite Hab.
    rewrite andb_comm in Hab. rewrite Hab. split; reflexivity.
Qed.

(** The value 100, and the pair 1 and 1.000001. *)
Lemma eq_reflexive_and_symmetric_where_it_is_witness :
  DiffCheckerReal.isfinite (DiffCheckerReal.of_Z 100) = true /\
  DiffCheckerReal.eq (DiffCheckerReal.of_Z 100) (DiffCheckerReal.of_Z 100) = true /\
  DiffCheckerReal.le
    (DiffCheckerReal.sub (DiffCheckerReal.of_Z 1)
       (DiffCheckerReal.literal 1000001 1000000))
    (DiffCheckerReal.literal 1 100000)
  && DiffCheckerReal.le
       (DiffCheckerReal.sub (DiffCheckerReal.literal 1000001 1000000)
          (DiffCheckerReal.of_Z 1))
       (DiffCheckerReal.literal 1 100000) = true /\
  DiffCheckerReal.eq (DiffCheckerReal.of_Z 1)
    (DiffCheckerReal.literal 1000001 1000000) = true /\
  DiffCheckerReal.eq (DiffCheckerReal.literal 1000001 1000000)
    (DiffCheckerReal.of_Z 1) = true.
Proof.
  destruct eq_reflexive_and_symmetric_where_it_is as (_ & _ & Hrefl & Hsym).
  split; [reflexivity|]. split; [apply Hrefl; reflexivity|].
  split; [vm_compute; reflexivity|]. apply Hsym. vm_compute. reflexivity.
Defined.

(** C5 as stated fails: 99005 is within 1% of 100000 taken relative to
    100000, and 100000 is not within 1% of 99005 taken relative to 99005. *)
Lemma real_eq_not_symmetric :
  DiffCheckerReal.val (DiffCheckerReal.of_Z 100000) = true /\
  DiffCheckerReal.val (DiffCheckerReal.of_Z 99005) = true /\
  DiffCheckerReal.eq (DiffCheckerReal.of_Z 100000) (DiffCheckerReal.of_Z 99005) = true /\
  DiffCheckerReal.eq (DiffCheckerReal.of_Z 99005) (DiffCheckerReal.of_Z 100000) = false.
Proof.
  repeat split; vm_compute; reflexivity.
Qed.

(** ** The comparison engine *)

Section Engine.
Context {T : Type} `{Profile T} `{!ProfileOk T}.
Variable LookAhead : Z.
Variables ShowDiff ShowOutput : bool.

Import Token.

Lemma tokens_ended (content : string) : ended (Tokenizer.tokens (T := T) content).
Proof.
apply tokens_of_ended. reflexivity.
Qed.

Lemma tokens_continued (content : string) :
continued (Tokenizer.tokens (T := T) content).
Proof.
apply tokens_of_continues. reflexivity.
Qed.

(** The three ways in which the comparison of two open streams ends. *)
Lemma compare_cases (h : bool) (cc gc : string) :
exists (code : Z) (r' : DiffChecker.Run) (n : nat),
  DiffChecker.compare LookAhead ShowDiff ShowOutput h
    (IStream.open (Some cc)) (IStream.open (Some gc)) = Some (Ret code, r') /\
  ((verdict (Tokenizer.tokens cc) (Tokenizer.tokens gc) = Some (n, BadGroundTruth) /\
    code = 1 /\ DiffChecker.cout r' = "" /\
    DiffChecker.cerr r' = "Ground-truth file format is invalid." ++ DiffChecker.endl) \/
   (verdict (Tokenizer.tokens cc) (Tokenizer.tokens gc) = Some (n, Correct) /\
    code = 0 /\ DiffChecker.cout r' = "1|Correct output." /\ DiffChecker.cerr r' = "") \/
   (exists c g,
      verdict (Tokenizer.tokens cc) (Tokenizer.tokens gc) = Some (n, Mismatch c g) /\
      code = 0 /\ (exists rest, DiffChecker.cout r' = "0|" ++ rest) /\
      DiffChecker.cerr r' = "")).
Proof.
destruct (compare_outcome LookAhead ShowDiff ShowOutput h cc gc)
  as ([n v] & Hd & Hcmp).
destruct v as [|c g|].
- do 3 eexists. split; [exact Hcmp|]. right. left. repeat split; [exact Hd].
- apply (verdict_Mismatch _ _ _ _ _ (tokens_ended gc)) in Hd as Hnth.
  destruct Hnth as (Ha & Hc & Hg & Eeq & Hk).
  destruct (compare_mismatch LookAhead ShowDiff ShowOutput h cc gc n c g
              Ha Hc Hg Eeq Hk)
    as (r' & Hcmp' & _ & Herr & line & rest & Hout & _).
  exists 0, r', n. split; [exact Hcmp'|]. right. right. exists c, g.
  repeat split; [exact Hd| |exact Herr]. exists (line ++ rest). exact Hout.
- do 3 eexists. split; [exact Hcmp|]. left. repeat split; [exact Hd].
Qed.

End Engine.

(** C1 (as amended).  The comparison of two streams always returns.  It
    prints [1|Correct output.] exactly when the token pairs are equal up to
    and including the EndOfFile token of the ground truth.  At the first
    unequal pair whose ground-truth token is not Invalid it prints a line of
    grade 0 and returns 0, the ground-truth tokenizer having been advanced
    to that pair and no further.  When the ground-truth token of a pair is
    Invalid and the pairs before it are equal, it prints no grade line and
    returns 1. *)
Theorem lock_step_grading {T : Type} `{Profile T} `{!ProfileOk T}
    (LookAhead : Z) (ShowDiff ShowOutput isTestCaseHidden : bool)
    (claimedContent correctContent : string) :
  let cs := Tokenizer.tokens claimedContent in
  let gs := Tokenizer.tokens correctContent in
  exists (code : Z) (r' : DiffChecker.Run),
    DiffChecker.compare LookAhead ShowDiff ShowOutput isTestCaseHidden
      (IStream.open (Some claimedContent)) (IStream.open (Some correctContent))
      = Some (Ret code, r') /\
    (DiffChecker.cout r' = "1|Correct output." <->
     exists n g, nth_error gs n = Some g /\ Token.kind g = Token.EndOfFile /\
                 agree cs gs (S n)) /\
    (forall n c g,
       agree cs gs n -> nth_error cs n = Some c -> nth_error gs n = Some g ->
       Token.isEqual g c = false -> Token.kind g <> Token.Invalid ->
       code = 0 /\ (exists rest, DiffChecker.cout r' = "0|" ++ rest) /\
       DiffChecker.cerr r' = "" /\
       DiffChecker.correct r' =
         advance (S n) (Tokenizer.create (IStream.open (Some correctContent)))) /\
    (forall n g,
       agree cs gs n -> nth_error gs n = Some g -> Token.kind g = Token.Invalid ->
       code = 1 /\ DiffChecker.cout r' = "").
Proof.
  intros cs gs.
  pose proof (tokens_ended (T := T) correctContent) as He.
  pose proof (tokens_continued (T := T) claimedContent) as Hco.
  destruct (compare_cases LookAhead ShowDiff ShowOutput isTestCaseHidden
              claimedContent correctContent) as (code & r' & m & Hcmp & Hcases).
  fold cs gs in Hcases, He, Hco.
  exists code, r'. split; [exact Hcmp|]. split; [|split].
  - split.
    + intros Hout.
      destruct Hcases as [(_ & _ & Hc & _)|[(Hv & _)|(c & g & _ & _ & (rest & Hc) & _)]].
      * rewrite Hc in Hout. discriminate.
      * apply (verdict_Correct _ _ _ He) in Hv. destruct Hv as (Ha & g & Hg & Hk).
        exists m, g. auto.
      * rewrite Hc in Hout. discriminate.
    + intros (n & g & Hg & Hk & Ha).
      assert (Hv : verdict cs gs = Some (n, Correct)).
      { apply (verdict_Correct _ _ _ He). split; [exact Ha|]. exists g. auto. }
      destruct Hcases as [(Hv' & _)|[(_ & _ & Hc & _)|(c & g' & Hv' & _)]];
        [congruence|exact Hc|congruence].
  - intros n c g Ha Hc Hg Eeq Hk.
    destruct (compare_mismatch LookAhead ShowDiff ShowOutput isTestCaseHidden
                claimedContent correctContent n c g Ha Hc Hg Eeq Hk)
      as (r'' & Hcmp' & Hcor & Herr & line & rest & Hout & _).
    rewrite Hcmp in Hcmp'. injection Hcmp' as -> <-.
    split; [reflexivity|]. split; [exists (line ++ rest); exact Hout|].
    split; [exact Herr|exact Hcor].
  - intros n g Ha Hg Hk.
    assert (Hv : verdict cs gs = Some (n, BadGroundTruth)).
    { apply (verdict_BadGroundTruth _ _ _ He Hco). split; [exact Ha|]. exists g. auto. }
    destruct Hcases as [(_ & Hcode & Hc & _)|[(Hv' & _)|(c & g' & Hv' & _)]];
      [auto|congruence|congruence].
Qed.

(** The claimed output [1 2 4] against [1 2 3] under the character
    profile: the first unequal pair is the pair 4. *)
Lemma lock_step_grading_witness :
  agree (Tokenizer.tokens ("1 2 4" ++ nl)) (Tokenizer.tokens ("1 2 3" ++ nl)) 4 /\
  nth_error (Tokenizer.tokens ("1 2 4" ++ nl)) 4 = Some (Token.of_value "4"%char 1 5) /\
  nth_error (Tokenizer.tokens ("1 2 3" ++ nl)) 4 = Some (Token.of_value "3"%char 1 5) /\
  Token.isEqual (Token.of_value "3"%char 1 5) (Token.of_value "4"%char 1 5) = false /\
  Token.kind (Token.of_value "3"%char 1 5) <> Token.Invalid /\
  exists (code : Z) (r' : DiffChecker.Run),
    DiffChecker.compare 10 true true false
      (IStream.open (Some ("1 2 4" ++ nl))) (IStream.open (Some ("1 2 3" ++ nl)))
      = Some (Ret code, r') /\
    code = 0 /\ (exists rest, DiffChecker.cout r' = "0|" ++ rest) /\
    DiffChecker.cerr r' = "" /\
    DiffChecker.correct r' =
      advance (T := ascii) 5 (Tokenizer.create (IStream.open (Some ("1 2 3" ++ nl)))).
Proof.
  assert (Ha : agree (Tokenizer.tokens ("1 2 4" ++ nl))
                 (Tokenizer.tokens ("1 2 3" ++ nl)) 4).
  { intros i Hi.
    do 4 (destruct i as [|i];
          [do 2 eexists; split; [vm_compute; reflexivity|];
           split; [vm_compute; reflexivity|reflexivity]|]).
    lia. }
  assert (Hk : Token.kind (Token.of_value "3"%char 1 5) <> Token.Invalid)
    by discriminate.
  assert (Hc : nth_error (Tokenizer.tokens ("1 2 4" ++ nl)) 4
               = Some (Token.of_value "4"%char 1 5)) by (vm_compute; reflexivity).
  assert (Hg : nth_error (Tokenizer.tokens ("1 2 3" ++ nl)) 4
               = Some (Token.of_value "3"%char 1 5)) by (vm_compute; reflexivity).
  assert (He : Token.isEqual (Token.of_value "3"%char 1 5)
                 (Token.of_value "4"%char 1 5) = false) by (vm_compute; reflexivity).
  split; [exact Ha|]. split; [exact Hc|]. split; [exact Hg|].
  split; [exact He|]. split; [exact Hk|].
  destruct (@lock_step_grading ascii DiffCheckerChar.profile char_profile_ok
              10 true true false ("1 2 4" ++ nl) ("1 2 3" ++ nl))
    as (code & r' & Hcmp & _ & Hmis & _).
  exists code, r'. split; [exact Hcmp|].
  exact (Hmis 4%nat (Token.of_value "4"%char 1 5) (Token.of_value "3"%char 1 5)
           Ha Hc Hg He Hk).
Defined.

(** C1 as stated fails: the first token pair of the claimed stream [a] and
    a ground truth that starts with the control character 1 is unequal, and
    the checker prints no grade line and returns 1. *)
Lemma unequal_pair_without_grade_line :
  nth_error (Tokenizer.tokens "a") 0 = Some (Token.of_value "a"%char 1 1) /\
  nth_error (Tokenizer.tokens (String "001" "")) 0
    = Some (Token.mk Token.Invalid zero 1 1) /\
  Token.isEqual (Token.mk Token.Invalid zero 1 1) (Token.of_value "a"%char 1 1) = false /\
  DiffChecker.diff_checker_base 10 true true
    (two_files (Some "a") (Some (String "001" ""))) (command_line "0")
  = Some (Ret 1, ("", "Ground-truth file format is invalid." ++ nl)).
Proof.
  repeat split; vm_compute; reflexivity.
Qed.

(** ** The checker as a process *)

Lemma argc_at_least_5 (argv : list string) :
  (5 <= List.length argv)%nat -> (Z.of_nat (List.length argv) <? 5) = false.
Proof.
  intros Hn. apply Z.ltb_ge. lia.
Qed.

Lemma fail_open_Some (content : string) :
  fail (IStream.open (Some content)) = false.
Proof. reflexivity. Qed.

Lemma fail_open_None : fail (IStream.open None) = true.
Proof. reflexivity. Qed.

(** C2 (as amended).  With the diff shown and the test case not hidden,
    under every profile that reads the texts [1], [2], [3], [4] as values
    equal to themselves, with 3 and 4 unequal and printed as [3] and [4],
    the claimed output [1 2 4] against the ground truth [1 2 3] prints first
    the line [0|Unexpected '4' at line 1, token 5, while expecting '3'.]:
    the claimed token in long form with its own line and token index, which
    is 5 because the two Space tokens before it are counted.  Nothing else
    is printed unless the output is echoed. *)
Theorem scenario_B {T : Type} `{Profile T} `{!ProfileOk T}
    (LookAhead : Z) (ShowOutput : bool)
    (fs : string -> option string) (argv : list string) (v1 v2 v3 v4 : T) :
  (5 <= List.length argv)%nat ->
  nth 4 argv "" = "0" ->
  fs (nth 2 argv "") = Some ("1 2 4" ++ nl) ->
  fs (nth 3 argv "") = Some ("1 2 3" ++ nl) ->
  reads "1" v1 -> reads "2" v2 -> reads "3" v3 -> reads "4" v4 ->
  EQ v1 v1 = true -> EQ v2 v2 = true -> EQ v3 v4 = false ->
  insert v3 = "3" -> insert v4 = "4" ->
  nth_error (Tokenizer.tokens ("1 2 4" ++ nl)) 4 = Some (Token.of_value v4 1 5) /\
  exists rest,
    DiffChecker.diff_checker_base LookAhead true ShowOutput fs argv =
      Some (Ret 0,
            ("0|Unexpected '4' at line 1, token 5, while expecting '3'." ++ nl ++ rest,
             "")) /\
    (ShowOutput = false -> rest = "").
Proof.
  intros Hargc Hflag Hclaimed Hcorrect R1 R2 R3 R4 E1 E2 E34 I3 I4.
  pose proof (tokens_of_three "1" "2" "4" v1 v2 v4 eq_refl eq_refl eq_refl R1 R2 R4)
    as Hcs.
  pose proof (tokens_of_three "1" "2" "3" v1 v2 v3 eq_refl eq_refl eq_refl R1 R2 R3)
    as Hgs.
  change (String "1" (String " " (String "2" (String " " (String "4" nl)))))
    with ("1 2 4" ++ nl) in Hcs.
  change (String "1" (String " " (String "2" (String " " (String "3" nl)))))
    with ("1 2 3" ++ nl) in Hgs.
  assert (Hc : nth_error (Tokenizer.tokens ("1 2 4" ++ nl)) 4
               = Some (Token.of_value v4 1 5)) by (rewrite Hcs; reflexivity).
  assert (Hg : nth_error (Tokenizer.tokens ("1 2 3" ++ nl)) 4
               = Some (Token.of_value v3 1 5)) by (rewrite Hgs; reflexivity).
  assert (Ha : agree (Tokenizer.tokens ("1 2 4" ++ nl))
                 (Tokenizer.tokens ("1 2 3" ++ nl)) 4).
  { rewrite Hcs, Hgs. intros i Hi.
    do 4 (destruct i as [|i];
          [do 2 eexists; split; [reflexivity|]; split; [reflexivity|];
           unfold Token.isEqual; cbn; rewrite ?E1, ?E2; reflexivity|]).
    lia. }
  assert (He : Token.isEqual (Token.of_value v3 1 5) (Token.of_value v4 1 5) = false)
    by (unfold Token.isEqual; cbn; rewrite E34; reflexivity).
  split; [exact Hc|].
  destruct (compare_mismatch LookAhead true ShowOutput false _ _ 4%nat _ _ Ha Hc Hg He)
    as (r' & Hcmp & _ & Herr & line & rest & Hout & Hline & Hrest & _);
    [discriminate|].
  exists rest. split; [|exact Hrest].
  unfold DiffChecker.diff_checker_base.
  rewrite (argc_at_least_5 argv Hargc), Hflag, Hclaimed, Hcorrect.
  cbn [String.eqb Ascii.eqb Bool.eqb negb andb].
  rewrite !fail_open_Some, Hcmp. unfold DiffChecker.console. rewrite Hout, Herr.
  rewrite <- append_assoc, (Hline eq_refl eq_refl).
  unfold unexpected_line, Token.lstr. cbn [Token.mKind Token.of_value Token.mValue].
  rewrite I3, I4. reflexivity.
Qed.

(** The scenario under the character profile, without the echo. *)
Lemma scenario_B_witness :
  (5 <= List.length (command_line "0"))%nat /\
  nth 4 (command_line "0") "" = "0" /\
  two_files (Some ("1 2 4" ++ nl)) (Some ("1 2 3" ++ nl)) (nth 2 (command_line "0") "")
    = Some ("1 2 4" ++ nl) /\
  two_files (Some ("1 2 4" ++ nl)) (Some ("1 2 3" ++ nl)) (nth 3 (command_line "0") "")
    = Some ("1 2 3" ++ nl) /\
  reads "1" "1"%char /\ reads "2" "2"%char /\ reads "3" "3"%char /\ reads "4" "4"%char /\
  EQ "1"%char "1"%char = true /\ EQ "2"%char "2"%char = true /\
  EQ "3"%char "4"%char = false /\
  insert "3"%char = "3" /\ insert "4"%char = "4" /\
  nth_error (Tokenizer.tokens ("1 2 4" ++ nl)) 4 = Some (Token.of_value "4"%char 1 5) /\
  exists rest,
    DiffChecker.diff_checker_base 10 true false
      (two_files (Some ("1 2 4" ++ nl)) (Some ("1 2 3" ++ nl))) (command_line "0") =
      Some (Ret 0,
            ("0|Unexpected '4' at line 1, token 5, while expecting '3'." ++ nl ++ rest,
             "")) /\
    (false = false -> rest = "").
Proof.
  assert (H1 : (5 <= List.length (command_line "0"))%nat) by (cbn; lia).
  assert (H2 : nth 4 (command_line "0") "" = "0") by reflexivity.
  assert (H3 : two_files (Some ("1 2 4" ++ nl)) (Some ("1 2 3" ++ nl))
                 (nth 2 (command_line "0") "") = Some ("1 2 4" ++ nl))
    by reflexivity.
  assert (H4 : two_files (Some ("1 2 4" ++ nl)) (Some ("1 2 3" ++ nl))
                 (nth 3 (command_line "0") "") = Some ("1 2 3" ++ nl))
    by reflexivity.
  assert (R : forall d : ascii, IStream.isspace d = false ->
                DiffCheckerChar.val d = true -> reads (String d "") d).
  { intros d Hd Hv. split; [exact Hv|]. intros c rest Hc.
    cbn. unfold extract_char. cbn. rewrite Hd. reflexivity. }
  assert (R1 : reads "1" "1"%char) by (apply R; reflexivity).
  assert (R2 : reads "2" "2"%char) by (apply R; reflexivity).
  assert (R3 : reads "3" "3"%char) by (apply R; reflexivity).
  assert (R4 : reads "4" "4"%char) by (apply R; reflexivity).
  split; [exact H1|]. split; [exact H2|]. split; [exact H3|]. split; [exact H4|].
  split; [exact R1|]. split; [exact R2|]. split; [exact R3|]. split; [exact R4|].
  split; [reflexivity|]. split; [reflexivity|]. split; [reflexivity|].
  split; [reflexivity|]. split; [reflexivity|].
  exact (@scenario_B ascii DiffCheckerChar.profile char_profile_ok 10 false _ _
           "1"%char "2"%char "3"%char "4"%char
           H1 H2 H3 H4 R1 R2 R3 R4 eq_refl eq_refl eq_refl eq_refl eq_refl).
Defined.

(** C2 as stated fails: the line printed names token 5, not token 3. *)
Lemma scenario_B_is_not_token_3 :
  DiffChecker.diff_checker_base 10 true false
    (two_files (Some ("1 2 4" ++ nl)) (Some ("1 2 3" ++ nl))) (command_line "0")
  = Some (Ret 0,
          ("0|Unexpected '4' at line 1, token 5, while expecting '3'." ++ nl, "")) /\
  DiffChecker.diff_checker_base 10 true false
    (two_files (Some ("1 2 4" ++ nl)) (Some ("1 2 3" ++ nl))) (command_line "0")
  <> Some (Ret 0,
           ("0|Unexpected '4' at line 1, token 3, while expecting '3'." ++ nl, "")).
Proof.
  assert (E : DiffChecker.diff_checker_base 10 true false
    (two_files (Some ("1 2 4" ++ nl)) (Some ("1 2 3" ++ nl))) (command_line "0")
  = Some (Ret 0,
          ("0|Unexpected '4' at line 1, token 5, while expecting '3'." ++ nl, "")))
    by (vm_compute; reflexivity).
  split; [exact E|]. rewrite E. discriminate.
Qed.

(** C8 (as amended).  The checker always returns, with status 0 or 1.  It
    returns 1 exactly on a failure of its environment, taken in the order
    of the checks: fewer than five arguments, a hidden flag other than [0]
    and [1], or, once the claimed output is open, a ground truth that cannot
    be opened or whose tokenizer returns an Invalid token while all pairs
    before it are equal.  It then prints nothing on standard output.  With
    status 0 it prints a grade line and nothing on standard error; a claimed
    output that cannot be opened gives status 0 and the line
    [0|Error opening the output file.] whatever the ground truth is. *)
Theorem exit_status {T : Type} `{Profile T} `{!ProfileOk T}
    (LookAhead : Z) (ShowDiff ShowOutput : bool)
    (fs : string -> option string) (argv : list string) :
  exists (code : Z) (out err : string),
    DiffChecker.diff_checker_base LookAhead ShowDiff ShowOutput fs argv
      = Some (Ret code, (out, err)) /\
    (code = 0 \/ code = 1) /\
    (code = 1 <-> environment_error fs argv) /\
    (code = 1 -> out = "") /\
    (code = 0 ->
       err = "" /\ (out = "1|Correct output." \/ exists rest, out = "0|" ++ rest)) /\
    ((5 <= List.length argv)%nat ->
     nth 4 argv "" = "0" \/ nth 4 argv "" = "1" ->
     fs (nth 2 argv "") = None ->
     code = 0 /\ out = "0|Error opening the output file." ++ DiffChecker.endl).
Proof.
  unfold DiffChecker.diff_checker_base, environment_error.
  destruct (Z.of_nat (List.length argv) <? 5) eqn:Eargc.
  { apply Z.ltb_lt in Eargc.
    exists 1, "", ("Invalid parameters." ++ DiffChecker.endl).
    split; [reflexivity|]. split; [auto|]. split; [split; [intros _; left; lia|auto]|].
    split; [auto|]. split; [discriminate|]. intros Hn. lia. }
  apply Z.ltb_ge in Eargc.
  destruct (String.eqb_spec (nth 4 argv "") "0") as [E0|E0];
    destruct (String.eqb_spec (nth 4 argv "") "1") as [E1|E1];
    cbn [negb andb]; try congruence.
  3:{ exists 1, "", ("Invalid test-case-hidden parameter." ++ DiffChecker.endl).
      split; [reflexivity|]. split; [auto|].
      split; [split; [intros _; right; left; auto|auto]|].
      split; [auto|]. split; [discriminate|]. intros _ [E|E]; congruence. }
  all: destruct (fs (nth 2 argv "")) as [cc|] eqn:Ecc.
  all: rewrite ?fail_open_Some, ?fail_open_None.
  all: try (exists 0, ("0|Error opening the output file." ++ DiffChecker.endl), "";
            split; [reflexivity|]; split; [auto|];
            split; [split; [discriminate|];
                    intros [Hl|[[Hn0 Hn1]|(cc' & Hcc' & _)]];
                    [lia|congruence|discriminate]|];
            split; [discriminate|];
            split; [intros _; split; [reflexivity|right; eexists; reflexivity]|];
            auto).
  all: destruct (fs (nth 3 argv "")) as [gc|] eqn:Egc.
  all: rewrite ?fail_open_Some, ?fail_open_None.
  all: try (exists 1, "", ("Error opening the ground-truth file." ++ DiffChecker.endl);
            split; [reflexivity|]; split; [auto|];
            split; [split; [intros _; right; right; exists cc; auto|auto]|];
            split; [auto|]; split; [discriminate|]; intros _ _ [=]).
  all: match goal with
       | |- context [DiffChecker.compare _ _ _ ?h _ _] =>
           destruct (compare_cases LookAhead ShowDiff ShowOutput h cc gc)
             as (code & r' & n & Hcmp & Hcases)
       end.
  all: rewrite Hcmp; exists code, (DiffChecker.cout r'), (DiffChecker.cerr r').
  all: split; [reflexivity|].
  all: pose proof (tokens_ended (T := T) gc) as He.
  all: pose proof (tokens_continued (T := T) cc) as Hco.
  all: destruct Hcases as [(Hv & -> & Hout & Herr)
                          |[(Hv & -> & Hout & Herr)
                           |(c & g & Hv & -> & (rest & Hout) & Herr)]].
  all: split; [auto|].
  all: split; [|split; [intros; try discriminate; assumption|
                split; [intros; try discriminate; rewrite ?Hout; eauto|
                        intros _ _ [=]]]].
  all: split; try discriminate.
  all: try (intros _; right; right; exists cc; split; [reflexivity|]; right;
            apply (verdict_BadGroundTruth _ _ _ He Hco) in Hv;
            destruct Hv as (Ha & g & Hg & Hk); exists gc, n, g; auto).
  all: intros [Hl|[[Hn0 Hn1]|(cc' & [= <-] & [[=]|(gc' & n' & g' & [= <-] & Ha & Hg & Hk)])]];
    try lia; try congruence.
  all: assert (Hv' : verdict (Tokenizer.tokens cc) (Tokenizer.tokens gc)
                     = Some (n', BadGroundTruth))
      by (apply (verdict_BadGroundTruth _ _ _ He Hco); eauto).
  all: congruence.
Qed.

(** A claimed output that cannot be opened. *)
Lemma exit_status_witness :
  (5 <= List.length (command_line "0"))%nat /\
  (nth 4 (command_line "0") "" = "0" \/ nth 4 (command_line "0") "" = "1") /\
  two_files None (Some "a") (nth 2 (command_line "0") "") = None /\
  exists (code : Z) (out err : string),
    DiffChecker.diff_checker_base 10 true true
      (two_files None (Some "a")) (command_line "0") = Some (Ret code, (out, err)) /\
    code = 0 /\ out = "0|Error opening the output file." ++ DiffChecker.endl.
Proof.
  assert (H1 : (5 <= List.length (command_line "0"))%nat) by (cbn; lia).
  assert (H2 : nth 4 (command_line "0") "" = "0" \/ nth 4 (command_line "0") "" = "1")
    by (left; reflexivity).
  assert (H3 : two_files None (Some "a") (nth 2 (command_line "0") "") = None)
    by reflexivity.
  split; [exact H1|]. split; [exact H2|]. split; [exact H3|].
  destruct (@exit_status ascii DiffCheckerChar.profile char_profile_ok
              10 true true (two_files None (Some "a")) (command_line "0"))
    as (code & out & err & Hrun & _ & _ & _ & _ & Hopen).
  exists code, out, err. split; [exact Hrun|]. exact (Hopen H1 H2 H3).
Defined.

(** C8 as stated fails.  When neither file can be opened the ground truth
    is unopenable, and the checker prints a grade line and returns 0.  When
    the ground truth [a], control character 1 is compared with the claimed
    output [b], the ground-truth stream holds an Invalid token, and the
    checker prints a grade line and returns 0. *)
Lemma environment_errors_with_status_0 :
  two_files None None (nth 3 (command_line "0") "") = None /\
  DiffChecker.diff_checker_base 10 true false (two_files None None) (command_line "0")
    = Some (Ret 0, ("0|Error opening the output file." ++ nl, "")) /\
  nth_error (Tokenizer.tokens ("a" ++ String "001" "")) 1
    = Some (Token.mk Token.Invalid zero 1 2) /\
  DiffChecker.diff_checker_base 10 true false
    (two_files (Some "b") (Some ("a" ++ String "001" ""))) (command_line "0")
    = Some (Ret 0,
            ("0|Unexpected 'b' at line 1, token 1, while expecting 'a'." ++ nl, "")).
Proof.
  repeat split; vm_compute; reflexivity.
Qed.

(** ** The echo of the claimed output *)

Lemma nth_error_last {A} (l : list A) (d : A) :
  l <> [] -> nth_error l (pred (List.length l)) = Some (last l d).
Proof.
  induction l as [|a l IH]; [congruence|]. intros _.
  destruct l as [|b l]; [reflexivity|].
  change (last (a :: b :: l) d) with (last (b :: l) d).
  cbn [List.length pred nth_error]. apply IH. discriminate.
Qed.

Lemma last_of_continued {T : Type} (l : list (Token.t T)) (d : Token.t T) :
  continued l -> DiffChecker.is_last (last l d) = true.
Proof.
  intros [Hne Hc]. destruct (DiffChecker.is_last (last l d)) eqn:E; [reflexivity|].
  exfalso. apply (Hc _ _ (nth_error_last l d Hne) E).
  apply nth_error_None. destruct l; [congruence|]. cbn. lia.
Qed.

(** C9 (as amended).  On a mismatch at pair [n], with the output echoed
    and the test case not hidden, the checker has pulled the first
    [n + 1 + LookAhead] claimed tokens, or all of them when the sequence
    ends before, so that it stops early only on an EndOfFile or Invalid
    token.  The buffer holds their short forms followed by the marker of the
    last token pulled: [..?..] when it is Invalid, nothing when it is
    EndOfFile, and [.....] in every other case, whether or not characters
    remain in the claimed stream.  The buffer is printed after the line
    [Your output (as parsed):]. *)
Theorem echo_of_the_claimed_output {T : Type} `{Profile T} `{!ProfileOk T}
    (LookAhead : Z) (ShowDiff : bool) (claimedContent correctContent : string)
    (n : nat) (c g : Token.t T) :
  let cs := Tokenizer.tokens claimedContent in
  let gs := Tokenizer.tokens correctContent in
  agree cs gs n -> nth_error cs n = Some c -> nth_error gs n = Some g ->
  Token.isEqual g c = false -> Token.kind g <> Token.Invalid ->
  let pulled := firstn (S n + Z.to_nat LookAhead) cs in
  let lastToken := last pulled c in
  exists (r' : DiffChecker.Run) (line : string),
    DiffChecker.compare LookAhead ShowDiff true false
      (IStream.open (Some claimedContent)) (IStream.open (Some correctContent))
      = Some (Ret 0, r') /\
    DiffChecker.claimed r' =
      advance (List.length pulled) (Tokenizer.create (IStream.open (Some claimedContent))) /\
    (List.length pulled <= S n + Z.to_nat LookAhead)%nat /\
    ((List.length pulled < S n + Z.to_nat LookAhead)%nat ->
       DiffChecker.is_last lastToken = true) /\
    DiffChecker.checkerOutput r' = sstrs pulled ++ marker lastToken /\
    (Token.kind lastToken = Token.Invalid -> marker lastToken = "..?..") /\
    (Token.kind lastToken = Token.EndOfFile -> marker lastToken = "") /\
    (Token.kind lastToken <> Token.Invalid -> Token.kind lastToken <> Token.EndOfFile ->
       marker lastToken = ".....") /\
    DiffChecker.cout r' =
      "0|" ++ line ++ "Your output (as parsed):" ++ DiffChecker.endl
      ++ DiffChecker.checkerOutput r' ++ DiffChecker.endl.
Proof.
  intros cs gs Ha Hc Hg Eeq Hk pulled lastToken.
  destruct (compare_mismatch LookAhead ShowDiff true false
              claimedContent correctContent n c g Ha Hc Hg Eeq Hk)
    as (r' & Hcmp & _ & _ & line & rest & Hout & _ & _ & Hecho).
  destruct (Hecho eq_refl eq_refl) as (Hcl & Hbuf & Hrest).
  fold cs in Hcl, Hbuf. fold pulled in Hcl, Hbuf. fold lastToken in Hbuf.
  exists r', line. split; [exact Hcmp|]. split; [exact Hcl|].
  split; [apply firstn_le_length|].
  split.
  { intros Hlt. subst lastToken pulled.
    rewrite firstn_all2.
    - apply last_of_continued. apply tokens_continued.
    - destruct (Nat.le_gt_cases (List.length cs) (S n + Z.to_nat LookAhead))
        as [Hle|Hgt]; [exact Hle|].
      rewrite firstn_length_le in Hlt by lia. lia. }
  split; [exact Hbuf|].
  unfold marker.
  split; [intros ->; reflexivity|]. split; [intros ->; reflexivity|].
  split; [destruct (Token.kind lastToken); intros; congruence|].
  rewrite Hout, Hrest. reflexivity.
Qed.

(** The claimed output [abcdefghijk] against [x] under the character
    profile, with its look-ahead of 10. *)
Lemma echo_of_the_claimed_output_witness :
  agree (Tokenizer.tokens "abcdefghijk") (Tokenizer.tokens "x") 0 /\
  nth_error (Tokenizer.tokens "abcdefghijk") 0 = Some (Token.of_value "a"%char 1 1) /\
  nth_error (Tokenizer.tokens "x") 0 = Some (Token.of_value "x"%char 1 1) /\
  Token.isEqual (Token.of_value "x"%char 1 1) (Token.of_value "a"%char 1 1) = false /\
  Token.kind (Token.of_value "x"%char 1 1) <> Token.Invalid /\
  exists (r' : DiffChecker.Run) (line : string),
    DiffChecker.compare 10 true true false
      (IStream.open (Some "abcdefghijk")) (IStream.open (Some "x")) = Some (Ret 0, r') /\
    DiffChecker.checkerOutput r' =
      sstrs (firstn 11 (Tokenizer.tokens "abcdefghijk"))
      ++ marker (last (firstn 11 (Tokenizer.tokens "abcdefghijk"))
                   (Token.of_value "a"%char 1 1)) /\
    DiffChecker.cout r' =
      "0|" ++ line ++ "Your output (as parsed):" ++ DiffChecker.endl
      ++ DiffChecker.checkerOutput r' ++ DiffChecker.endl.
Proof.
  assert (Ha : agree (Tokenizer.tokens "abcdefghijk") (Tokenizer.tokens "x") 0)
    by (intros i Hi; lia).
  assert (Hc : nth_error (Tokenizer.tokens "abcdefghijk") 0
               = Some (Token.of_value "a"%char 1 1)) by (vm_compute; reflexivity).
  assert (Hg : nth_error (Tokenizer.tokens "x") 0
               = Some (Token.of_value "x"%char 1 1)) by (vm_compute; reflexivity).
  assert (He : Token.isEqual (Token.of_value "x"%char 1 1)
                 (Token.of_value "a"%char 1 1) = false) by (vm_compute; reflexivity).
  assert (Hk : Token.kind (Token.of_value "x"%char 1 1) <> Token.Invalid)
    by discriminate.
  split; [exact Ha|]. split; [exact Hc|]. split; [exact Hg|].
  split; [exact He|]. split; [exact Hk|].
  destruct (@echo_of_the_claimed_output ascii DiffCheckerChar.profile char_profile_ok
              10 true "abcdefghijk" "x" 0%nat
              (Token.of_value "a"%char 1 1) (Token.of_value "x"%char 1 1)
              Ha Hc Hg He Hk)
    as (r' & line & Hcmp & _ & _ & _ & Hbuf & _ & _ & _ & Hout).
  exists r', line. split; [exact Hcmp|]. split; [exact Hbuf|exact Hout].
Defined.

(** C9 as stated fails: after the mismatch on [a] the ten tokens of the
    window use up the claimed stream [abcdefghijk], nothing is left unread,
    and the marker [.....] is appended all the same. *)
Lemma marker_on_an_exhausted_stream :
  exists r' : DiffChecker.Run,
    DiffChecker.compare 10 true true false
      (IStream.open (Some "abcdefghijk")) (IStream.open (Some "x")) = Some (Ret 0, r') /\
    unread (DiffChecker.claimed r') = "" /\
    DiffChecker.checkerOutput r' = "abcdefghijk....." /\
    DiffChecker.cout r' =
      "0|Unexpected 'a' at line 1, token 1, while expecting 'x'." ++ nl
      ++ "Your output (as parsed):" ++ nl ++ "abcdefghijk....." ++ nl.
Proof.
  eexists. split; [vm_compute; reflexivity|].
  repeat split; vm_compute; reflexivity.
Qed.

(** * Further properties of the code *)

(** ** The shape of a token sequence *)

Section SequenceFacts.
Context {T : Type} `{Profile T} `{!ProfileOk T}.

Import Token Tokenizer.

Lemma tokens_of_length (k : Tokenizer.t) :
  mIsValid k = true ->
  (List.length (tokens_of k) <= S (String.length (unread k)))%nat.
Proof.
  revert k. apply tokenizer_ind. intros k Hv IH.
  destruct (next_valid k Hv) as (tok & k' & Hn & Hpost).
  rewrite (tokens_of_unfold _ _ _ Hv Hn).
  pose proof (next_post_last _ _ _ Hpost) as Hl.
  destruct (DiffChecker.is_last tok); cbn [List.length]; [lia|].
  assert (Hv' : mIsValid k' = true) by (rewrite Hl; reflexivity).
  pose proof (next_progress _ _ _ Hpost Hv').
  specialize (IH tok k' Hn Hpost Hv'). lia.
Qed.

(** The token at index [n] is the one the call number [n] returns. *)
Lemma nth_is_next (n : nat) (k : Tokenizer.t) (tok : Token.t T) :
  mIsValid k = true -> nth_error (tokens_of k) n = Some tok ->
  mIsValid (advance n k) = true /\
  next (advance n k) = (Ret tok, advance (S n) k).
Proof.
  intros Hv Hn.
  assert (Hlen : (n < List.length (tokens_of k))%nat).
  { apply nth_error_Some. congruence. }
  destruct (advance_tokens n k Hv Hlen) as [Hvn Htn].
  split; [exact Hvn|].
  destruct (next_valid _ Hvn) as (t1 & k1 & Hnx & Hpost).
  pose proof (tokens_of_unfold _ _ _ Hvn Hnx) as Hu. rewrite Htn in Hu.
  assert (E : nth_error (skipn n (tokens_of k)) 0 = Some tok)
    by (rewrite nth_error_skipn, Nat.add_0_r; exact Hn).
  rewrite Hu in E. cbn in E. injection E as ->.
  change (advance (S n) k) with (snd (next (advance n k))).
  rewrite Hnx. reflexivity.
Qed.

End SequenceFacts.

(** X1. The tokens of a stream: a sequence that is not empty, ends in an
    EndOfFile or an Invalid token, holds no such token before, and has at
    most one token for each character, the last one apart. *)
Theorem token_sequence_shape {T : Type} `{Profile T} `{!ProfileOk T}
    (content : string) :
  exists (front : list (Token.t T)) (lastToken : Token.t T),
    Tokenizer.tokens content = (front ++ [lastToken])%list /\
    (Token.kind lastToken = Token.EndOfFile \/ Token.kind lastToken = Token.Invalid) /\
    Forall (fun tok => Token.kind tok <> Token.EndOfFile /\
                       Token.kind tok <> Token.Invalid) front /\
    (List.length front <= String.length content)%nat.
Proof.
  pose proof (tokens_of_continues _ (proj1 (tokens_valid content))) as Hco.
  pose proof (tokens_of_ended _ (proj1 (tokens_valid content))) as Hen.
  pose proof (tokens_of_length _ (proj1 (tokens_valid content))) as Hlen.
  fold (Tokenizer.tokens (T := T) content) in Hco, Hen, Hlen.
  destruct (exists_last (proj1 Hco)) as (front & lastToken & E).
  exists front, lastToken. split; [exact E|].
  pose proof (last_of_continued _ lastToken Hco) as Hl.
  rewrite E, last_last in Hl.
  split.
  { unfold DiffChecker.is_last in Hl. destruct (Token.kind lastToken); cbn in Hl;
      auto; discriminate. }
  split.
  - apply Forall_forall. intros tok Hin.
    destruct (In_nth_error _ _ Hin) as (i & Hi).
    assert (Hlt : (i < List.length front)%nat) by (apply nth_error_Some; congruence).
    assert (Hi' : nth_error (Tokenizer.tokens content) i = Some tok).
    { rewrite E, nth_error_app1 by exact Hlt. exact Hi. }
    destruct (DiffChecker.is_last tok) eqn:El.
    + specialize (Hen i tok Hi' El). apply nth_error_None in Hen.
      rewrite E, length_app in Hen. cbn in Hen. lia.
    + unfold DiffChecker.is_last in El. destruct (Token.kind tok); cbn in El;
        split; discriminate.
  - rewrite E, length_app in Hlen. cbn in Hlen. unfold unread in Hlen. cbn in Hlen. lia.
Qed.

Section PositionFacts.
Context {T : Type} `{Profile T}.
Import Token.

Lemma newlines_snoc (l : list (Token.t T)) (tok : Token.t T) :
  newlines (l ++ [tok]) =
    match kind tok with Newline => S (newlines l) | _ => newlines l end.
Proof.
  induction l as [|a l IH]; cbn.
  - destruct (kind tok); reflexivity.
  - rewrite IH. destruct (kind a), (kind tok); reflexivity.
Qed.

Lemma column_snoc (l : list (Token.t T)) (tok : Token.t T) :
  column (l ++ [tok]) =
    match kind tok with Newline => O | _ => S (column l) end.
Proof.
  unfold column. rewrite fold_left_app. reflexivity.
Qed.

End PositionFacts.

(** X2. The line of a token is one more than the number of Newline tokens
    before it, and its token index one more than the number of tokens since
    the last of them. *)
Theorem position_counts_tokens {T : Type} `{Profile T} `{!ProfileOk T}
    (content : string) (i : nat) (tok : Token.t T) :
  Z.of_nat (String.length content) < 2 ^ 64 - 1 ->
  nth_error (Tokenizer.tokens content) i = Some tok ->
  Token.line tok = 1 + Z.of_nat (newlines (firstn i (Tokenizer.tokens content))) /\
  Token.token tok = 1 + Z.of_nat (column (firstn i (Tokenizer.tokens content))).
Proof.
  intros Hlen. revert tok. induction i as [|i IH]; intros tok Hi.
  - destruct (tokens_of_head _ _ (proj1 (tokens_valid content)) Hi) as [Hl Ht].
    unfold Token.line, Token.token. rewrite Hl, Ht. split; reflexivity.
  - assert (Hex : exists t0, nth_error (Tokenizer.tokens content) i = Some t0).
    { destruct (nth_error (Tokenizer.tokens content) i) as [t0|] eqn:E; [eauto|].
      apply nth_error_None in E.
      assert (nth_error (Tokenizer.tokens content) (S i) = None)
        by (apply nth_error_None; lia).
      congruence. }
    destruct Hex as (t0 & H0). destruct (IH t0 H0) as [Hl0 Ht0].
    pose proof (tokens_of_positions (Tokenizer.create (IStream.open (Some content)))
                  eq_refl) as Hp.
    unfold unread, Tokenizer.create, IStream.open in Hp.
    cbn [Tokenizer.mLine Tokenizer.mToken Tokenizer.mInput rdbuf] in Hp.
    specialize (Hp ltac:(lia) ltac:(lia) ltac:(lia) ltac:(lia) i t0 tok H0 Hi).
    rewrite (firstn_snoc i _ t0 H0), newlines_snoc, column_snoc.
    unfold Token.line, Token.token, Token.kind in *.
    destruct (Token.mKind t0); try contradiction; destruct Hp as [Hpl Hpt]; lia.
Qed.

Section ValueFacts.
Context {T : Type} `{Profile T}.
Import Token Tokenizer.

Ltac open_next :=
  unfold next, consume, finish, token_here, newline_token, post_incr_mToken,
    on_input, bind, gets, modify, ret, throw, lift, of_value,
    set_mInput, set_mIsValid, set_mLine, set_mToken; cbn.

(** The value a token of [next()] carries. *)
Lemma next_value (k k' : Tokenizer.t) (tok : Token.t T) :
  next k = (Ret tok, k') ->
  match Token.mKind tok with
  | Valid => VAL (Token.mValue tok) = true
  | _ => Token.mValue tok = T_init
  end.
Proof.
  destruct k as [[buf e f] v l n]. open_next.
  destruct v; cbn; [|discriminate].
  destruct e, f, buf as [|c r]; cbn; try (intros [= <- <-]; reflexivity).
  rewrite code_not_EOF.
  destruct (code c =? 10) eqn:Enl.
  { cbn. rewrite Enl. cbn. destruct r as [|c2 r2]; cbn;
      try (intros [= <- <-]; reflexivity).
    rewrite code_not_EOF. intros [= <- <-]. reflexivity. }
  destruct (code c =? 32) eqn:Esp.
  { cbn. rewrite Esp. cbn. destruct r as [|c2 r2]; cbn;
      try (intros [= <- <-]; reflexivity).
    rewrite code_not_EOF. destruct (code c2 =? 10) eqn:Enl2.
    - cbn. rewrite Enl2. cbn. destruct r2 as [|c3 r3]; cbn;
        try (intros [= <- <-]; reflexivity).
      rewrite code_not_EOF. intros [= <- <-]. reflexivity.
    - intros [= <- <-]. reflexivity. }
  destruct (extract _) as [value0 i'] eqn:Eex. cbn.
  destruct (fail i') eqn:Ef; cbn; try (intros [= <- <-]; reflexivity).
  destruct (VAL value0) eqn:Ev; cbn; intros [= <- <-]; cbn; auto.
Qed.

(** Peeking a character and then consuming it. *)
Lemma consume_peeked (k : Tokenizer.t) :
  consume (fst (peek (mInput k))) (set_mInput (snd (peek (mInput k))) k) =
    (Ret tt,
     Tokenizer.mk (snd (get (snd (peek (mInput k))))) (mIsValid k) (mLine k) (mToken k)).
Proof.
  destruct k as [[buf e f] v l n]. open_next.
  destruct e, f, buf as [|c r]; cbn; try reflexivity.
  rewrite Z.eqb_refl. reflexivity.
Qed.

End ValueFacts.

(** X3. Every Valid token of a stream carries a value that the validity
    predicate accepts, and every other token the value-initialised one. *)
Theorem valid_tokens_are_valid {T : Type} `{Profile T} `{!ProfileOk T}
    (content : string) (i : nat) (tok : Token.t T) :
  nth_error (Tokenizer.tokens content) i = Some tok ->
  (Token.kind tok = Token.Valid -> VAL (Token.mValue tok) = true) /\
  (Token.kind tok <> Token.Valid -> Token.mValue tok = T_init).
Proof.
  intros Hi.
  destruct (nth_is_next i _ tok (proj1 (tokens_valid content)) Hi) as [_ Hn].
  pose proof (next_value _ _ _ Hn) as Hv. unfold Token.kind.
  destruct (Token.mKind tok); split; intros; congruence.
Qed.

(** X4. The character that [peek()] returned is the one [consume] gets:
    after a peek, [consume] returns and leaves the validity flag and the
    position as they are, whatever the state of the stream; it takes one
    character off the stream unless none is left. *)
Theorem consume_after_peek_returns (k : Tokenizer.t) :
  exists k',
    Tokenizer.consume (fst (peek (Tokenizer.mInput k)))
      (Tokenizer.set_mInput (snd (peek (Tokenizer.mInput k))) k) = (Ret tt, k') /\
    Tokenizer.mIsValid k' = Tokenizer.mIsValid k /\
    Tokenizer.mLine k' = Tokenizer.mLine k /\
    Tokenizer.mToken k' = Tokenizer.mToken k /\
    (fst (peek (Tokenizer.mInput k)) = EOF -> unread k' = unread k) /\
    (fst (peek (Tokenizer.mInput k)) <> EOF ->
       exists c, fst (peek (Tokenizer.mInput k)) = code c /\
                 unread k = String c (unread k')).
Proof.
  eexists. split; [apply consume_peeked|].
  destruct k as [[buf e f] v l n]. unfold unread. cbn.
  repeat (split; [reflexivity|]).
  unfold peek, get, good. cbn.
  destruct e, f, buf as [|c r]; cbn; split; try congruence; try reflexivity.
  - intros E. pose proof (code_not_EOF c) as Hc. apply Z.eqb_neq in Hc. congruence.
  - intros _. exists c. split; reflexivity.
Qed.

(** X6. The long form tells the kinds apart: two tokens with the same long
    form have the same kind; and it is never empty. *)
Theorem lstr_determines_kind {T : Type} `{Profile T} (a b : Token.t T) :
  Token.lstr a <> "" /\
  (Token.lstr a = Token.lstr b -> Token.kind a = Token.kind b).
Proof.
  unfold Token.lstr, Token.kind. split.
  - destruct (Token.mKind a); discriminate.
  - destruct (Token.mKind a), (Token.mKind b); cbn; intros E;
      try reflexivity; discriminate.
Qed.

(** X7. Token equality looks at the kind and, for two Valid tokens, at the
    values; never at the positions. When the value predicate is an
    equivalence, so is token equality. *)
Theorem isEqual_is_positionless {T : Type} `{Profile T} (a b c : Token.t T) :
  Token.isEqual a b =
    Token.isEqual (Token.mk (Token.mKind a) (Token.mValue a) 0 0)
                  (Token.mk (Token.mKind b) (Token.mValue b) 0 0) /\
  (Token.isEqual a b = true -> Token.kind a = Token.kind b) /\
  (Token.kind a = Token.kind b -> Token.kind a <> Token.Valid ->
     Token.isEqual a b = true) /\
  (Token.kind a = Token.Valid -> Token.kind b = Token.Valid ->
     Token.isEqual a b = EQ (Token.mValue a) (Token.mValue b)) /\
  ((forall v : T, EQ v v = true) -> Token.isEqual a a = true) /\
  ((forall v w : T, EQ v w = EQ w v) -> Token.isEqual a b = Token.isEqual b a) /\
  ((forall u v w : T, EQ u v = true -> EQ v w = true -> EQ u w = true) ->
     Token.isEqual a b = true -> Token.isEqual b c = true ->
     Token.isEqual a c = true).
Proof.
  unfold Token.isEqual, Token.kind. cbn [Token.mKind Token.mValue].
  split; [reflexivity|].
  split; [destruct (Token.mKind a), (Token.mKind b); cbn; congruence|].
  split; [intros <- Hk; destruct (Token.mKind a); cbn; congruence|].
  split; [intros -> ->; cbn; destruct (EQ _ _); reflexivity|].
  split; [intros Hr; destruct (Token.mKind a); cbn; rewrite ?Hr; reflexivity|].
  split.
  - intros Hs. destruct (Token.mKind a), (Token.mKind b); cbn; try reflexivity.
    now rewrite Hs.
  - intros Ht. destruct (Token.mKind a), (Token.mKind b), (Token.mKind c); cbn;
      try congruence.
    destruct (EQ (Token.mValue a) (Token.mValue b)) eqn:E1; [|discriminate].
    destruct (EQ (Token.mValue b) (Token.mValue c)) eqn:E2; [|discriminate].
    now rewrite (Ht _ _ _ E1 E2).
Qed.

(** X8. The predicates of the character profile: [val] accepts the
    characters with codes 33 to 126 and no others, bytes from 128 up
    included; [eq] holds of two characters exactly when they are the same. *)
Theorem char_predicates (a b : ascii) :
  (DiffCheckerChar.val a = true <-> 33 <= code a <= 126) /\
  (DiffCheckerChar.eq a b = true <-> a = b).
Proof.
  pose proof (code_range a) as Ha. pose proof (code_range b) as Hb.
  unfold DiffCheckerChar.val, DiffCheckerChar.eq, DiffCheckerChar.char_value.
  change (code "!") with 33. change (code "~") with 126.
  cbn [Z.ltb Z.compare Pos.compare Pos.compare_cont].
  split.
  - destruct (code a <? 128) eqn:E; [apply Z.ltb_lt in E|apply Z.ltb_ge in E];
      rewrite andb_true_iff, !Z.leb_le; lia.
  - split; [|intros ->; apply Z.eqb_refl].
    intros E. apply Z.eqb_eq in E.
    assert (Hc : code a = code b).
    { destruct (code a <? 128) eqn:E1; destruct (code b <? 128) eqn:E2;
        try apply Z.ltb_lt in E1; try apply Z.ltb_ge in E1;
        try apply Z.ltb_lt in E2; try apply Z.ltb_ge in E2; lia. }
    unfold code in Hc. apply N2Z.inj in Hc.
    rewrite <- (ascii_N_embedding a), <- (ascii_N_embedding b), Hc. reflexivity.
Qed.

(** X9. A NaN is equal to nothing under the real predicate, itself included,
    and neither it nor an infinity is a valid value. *)
Theorem real_eq_of_nan (b : DiffCheckerReal.long_double) :
  DiffCheckerReal.eq S754_nan b = false /\
  DiffCheckerReal.eq b S754_nan = false /\
  DiffCheckerReal.val S754_nan = false /\
  DiffCheckerReal.val (S754_infinity true) = false /\
  DiffCheckerReal.val (S754_infinity false) = false.
Proof.
  assert (Hl : forall x, DiffCheckerReal.le x S754_nan = false).
  { intros x. unfold DiffCheckerReal.le, SFleb. destruct x; reflexivity. }
  assert (Hs : forall x, DiffCheckerReal.sub x S754_nan = S754_nan).
  { intros x. destruct x; reflexivity. }
  split; [|split; [|repeat split]].
  - unfold DiffCheckerReal.eq. cbn. reflexivity.
  - unfold DiffCheckerReal.eq. rewrite Hs, !Hl. cbn [andb].
    rewrite andb_false_r. destruct (DiffCheckerReal.le _ b); reflexivity.
Qed.

(** ** More steps of [next()] *)

Section MoreSteps.
Context {T : Type} `{Profile T}.
Import Token Tokenizer.

Ltac open_next :=
  unfold next, consume, finish, token_here, newline_token, post_incr_mToken,
    on_input, bind, gets, modify, ret, throw, lift, of_value,
    set_mInput, set_mIsValid, set_mLine, set_mToken; cbn.

Lemma next_on_newline (c : ascii) (r : string) (l n : Pos) :
  next (Tokenizer.mk (IStream.mk (String "010" (String c r)) false false) true l n) =
    (Ret (Token.mk Newline T_init l n),
     Tokenizer.mk (IStream.mk (String c r) false false) true (wrap64 (l + 1)) 1).
Proof.
  open_next. rewrite code_not_EOF. reflexivity.
Qed.

Lemma next_on_space_newline (c : ascii) (r : string) (l n : Pos) :
  next (Tokenizer.mk (IStream.mk (String " " (String "010" (String c r))) false false)
          true l n) =
    (Ret (Token.mk Newline T_init l n),
     Tokenizer.mk (IStream.mk (String c r) false false) true (wrap64 (l + 1)) 1).
Proof.
  open_next. rewrite code_not_EOF. reflexivity.
Qed.

Lemma next_on_invalid_value (c : ascii) (r : string) (l n : Pos) (v : T) (i' : istream) :
  code c <> code "010" -> code c <> code " " ->
  extract (IStream.mk (String c r) false false) = (v, i') ->
  fail i' = true \/ VAL v = false ->
  next (Tokenizer.mk (IStream.mk (String c r) false false) true l n) =
    (Ret (Token.mk Invalid T_init l n), Tokenizer.mk i' false l n).
Proof.
  intros Hnl Hsp Hex Hf. apply Z.eqb_neq in Hnl, Hsp. open_next.
  rewrite code_not_EOF. cbn in Hnl, Hsp. rewrite Hnl, Hsp. cbn. rewrite Hex. cbn.
  destruct (fail i'); [reflexivity|]. destruct Hf as [Hf|Hf]; [discriminate|].
  rewrite Hf. reflexivity.
Qed.

End MoreSteps.

Lemma code_inj (a b : ascii) : code a = code b -> a = b.
Proof.
  unfold code. intros E. apply N2Z.inj in E.
  rewrite <- (ascii_N_embedding a), <- (ascii_N_embedding b), E. reflexivity.
Qed.

Lemma ends_in_text_cons (x y : ascii) (r : string) :
  ends_in_text (String x (String y r)) = ends_in_text (String y r).
Proof. reflexivity. Qed.

(** Skipping white space stops inside a stream that ends in text. *)
Lemma skipws_text (w : string) :
  w <> "" -> ends_in_text w = true ->
  exists z r,
    isspace z = false /\ ends_in_text r = true /\
    (String.length r < String.length w)%nat /\
    forall t, skipws (w ++ t) = String z (r ++ t).
Proof.
  induction w as [|x w IH]; [congruence|]. intros _ He.
  destruct w as [|y r0].
  - cbn in He. apply negb_true_iff in He. exists x, "".
    repeat split; auto. intros t. cbn. rewrite He. reflexivity.
  - rewrite ends_in_text_cons in He. destruct (isspace x) eqn:Ex.
    + destruct (IH ltac:(discriminate) He) as (z & r & Hz & Hr & Hl & Hs).
      exists z, r. repeat split; auto; [cbn in *; lia|].
      intros t. cbn [append skipws]. rewrite Ex. apply (Hs t).
    + exists x, (String y r0). repeat split; auto.
      intros t. cbn [append skipws]. rewrite Ex. reflexivity.
Qed.

Section TrailingWhiteSpace.
Import Token Tokenizer.

Lemma tokens_of_step (buf : string) (l n : Pos) (tok : Token.t ascii)
    (k' : Tokenizer.t) :
  next (Tokenizer.mk (IStream.mk buf false false) true l n) = (Ret tok, k') ->
  tokens_of (Tokenizer.mk (IStream.mk buf false false) true l n)
  = tok :: (if DiffChecker.is_last tok then [] else tokens_of k').
Proof.
  apply (tokens_of_unfold (ProfileOk0 := char_profile_ok)). reflexivity.
Qed.

Lemma tokens_of_insignificant (t : string) (l n : Pos) :
  insignificant t ->
  tokens_of (T := ascii) (Tokenizer.mk (IStream.mk t false false) true l n)
  = [Token.mk EndOfFile zero l n].
Proof.
  intros [-> | [-> | [-> | ->]]]; reflexivity.
Qed.

Lemma tokens_of_trailing (t : string) :
  insignificant t ->
  forall (m : nat) (w : string) (l n : Pos),
    (String.length w < m)%nat -> ends_in_text w = true ->
    tokens_of (T := ascii)
      (Tokenizer.mk (IStream.mk (w ++ t) false false) true l n)
    = tokens_of (T := ascii) (Tokenizer.mk (IStream.mk w false false) true l n).
Proof.
  intros Ht. induction m as [|m IH]; intros w l n Hm He; [lia|].
  destruct w as [|x w1].
  { cbn [append]. rewrite (tokens_of_insignificant t l n Ht).
    symmetry. apply (tokens_of_insignificant "" l n). left. reflexivity. }
  destruct (code x =? code "010") eqn:Enl.
  { apply Z.eqb_eq, code_inj in Enl. subst x.
    destruct w1 as [|y r]; [discriminate|]. rewrite ends_in_text_cons in He.
    cbn [append].
    rewrite (tokens_of_step _ _ _ _ _ (next_on_newline y (r ++ t) l n)).
    rewrite (tokens_of_step _ _ _ _ _ (next_on_newline y r l n)).
    cbn [DiffChecker.is_last kind Token.mKind Kind_eqb orb]. f_equal.
    apply (IH (String y r)); [cbn in *; lia|exact He]. }
  destruct (code x =? code " ") eqn:Esp.
  { apply Z.eqb_eq, code_inj in Esp. subst x.
    destruct w1 as [|y r]; [discriminate|]. rewrite ends_in_text_cons in He.
    destruct (code y =? code "010") eqn:Enl2.
    - apply Z.eqb_eq, code_inj in Enl2. subst y.
      destruct r as [|z r]; [discriminate|]. rewrite ends_in_text_cons in He.
      cbn [append].
      rewrite (tokens_of_step _ _ _ _ _ (next_on_space_newline z (r ++ t) l n)).
      rewrite (tokens_of_step _ _ _ _ _ (next_on_space_newline z r l n)).
      cbn [DiffChecker.is_last kind Token.mKind Kind_eqb orb]. f_equal.
      apply (IH (String z r)); [cbn in *; lia|exact He].
    - apply Z.eqb_neq in Enl2. cbn [append].
      rewrite (tokens_of_step _ _ _ _ _ (next_on_space y (r ++ t) l n Enl2)).
      rewrite (tokens_of_step _ _ _ _ _ (next_on_space y r l n Enl2)).
      cbn [DiffChecker.is_last kind Token.mKind Kind_eqb orb]. f_equal.
      apply (IH (String y r)); [cbn in *; lia|exact He]. }
  apply Z.eqb_neq in Enl, Esp.
  destruct (skipws_text (String x w1) ltac:(discriminate) He)
    as (z & r & Hz & Hr & Hl & Hs).
  assert (Hex : forall t', extract (IStream.mk (String x w1 ++ t') false false)
                           = (z, IStream.mk (r ++ t') false false)).
  { intros t'. cbn [extract DiffCheckerChar.profile]. unfold extract_char.
    cbn [good eofbit failbit negb andb rdbuf]. rewrite (Hs t'). reflexivity. }
  pose proof (Hex t) as Hex1. pose proof (Hex "") as Hex2.
  rewrite !append_nil_r in Hex2. cbn [append] in Hex1.
  cbn [append].
  destruct (VAL z) eqn:Ev.
  - rewrite (tokens_of_step _ _ _ _ _
               (next_on_value x (w1 ++ t) l n z _ Enl Esp Hex1 eq_refl Ev)).
    rewrite (tokens_of_step _ _ _ _ _
               (next_on_value x w1 l n z _ Enl Esp Hex2 eq_refl Ev)).
    cbn [DiffChecker.is_last kind Token.mKind Kind_eqb orb of_value]. f_equal.
    apply (IH r); [cbn in *; lia|exact Hr].
  - rewrite (tokens_of_step _ _ _ _ _
               (next_on_invalid_value x (w1 ++ t) l n z _ Enl Esp Hex1 (or_intror Ev))).
    rewrite (tokens_of_step _ _ _ _ _
               (next_on_invalid_value x w1 l n z _ Enl Esp Hex2 (or_intror Ev))).
    reflexivity.
Qed.

End TrailingWhiteSpace.

Lemma tokens_trailing (w t : string) :
  ends_in_text w = true -> insignificant t ->
  Tokenizer.tokens (T := ascii) (w ++ t) = Tokenizer.tokens (T := ascii) w.
Proof.
  intros He Ht.
  exact (tokens_of_trailing t Ht (S (String.length w)) w 1 1 (Nat.lt_succ_diag_r _) He).
Qed.

(** X10. Under the character profile, a space, a newline, or a space and a
    newline at the end of a stream that is empty or ends in a character
    other than white space do not change its tokens. *)
Theorem trailing_white_space_is_skipped (w t : string) :
  ends_in_text w = true -> insignificant t ->
  Tokenizer.tokens (T := ascii) (w ++ t) = Tokenizer.tokens (T := ascii) w.
Proof.
  intros He Ht. rewrite (tokens_trailing w t He Ht). reflexivity.
Qed.

Section ConsoleFacts.
Context {T : Type} `{Profile T} `{!ProfileOk T}.
Variable LookAhead : Z.
Variables ShowDiff ShowOutput : bool.

Import Token Tokenizer DiffChecker.

Lemma show_diff_exact h c g r :
  show_diff ShowDiff h c g r =
    (Ret tt, DiffChecker.mk (claimed r) (correct r) (checkerOutput r)
               (cout r ++ diff_text ShowDiff h c g) (cerr r)).
Proof.
  unfold show_diff, diff_text, unexpected_line.
  destruct ShowDiff; [destruct h|]; reflexivity.
Qed.

(** The mismatch branch, field by field. *)
Lemma report_exact h c g r :
  (is_last c = false -> mIsValid (claimed r) = true) ->
  let r' := report LookAhead ShowDiff ShowOutput h c g r in
  correct r' = correct r /\ cerr r' = cerr r /\
  (ShowOutput && negb h = false ->
     claimed r' = claimed r /\ checkerOutput r' = checkerOutput r) /\
  cout r' =
    cout r ++ diff_text ShowDiff h c g
    ++ (if ShowOutput then
          if h then "(Your output is intentionally hidden.)" ++ endl
          else "Your output (as parsed):" ++ endl ++ checkerOutput r' ++ endl
        else "").
Proof.
  intros Hv r'. subst r'. unfold report, mismatch_branch.
  rewrite (bind_Ret _ _ _ _ _ (show_diff_exact h c g r)).
  erewrite bind_Ret by (apply show_output_spec; exact Hv).
  unfold ret. cbn [snd].
  destruct ShowOutput; [destruct h|];
    cbn [claimed correct checkerOutput cout cerr andb negb].
  - repeat split; try reflexivity. now rewrite append_assoc.
  - split; [reflexivity|]. split; [reflexivity|]. split; [discriminate|].
    now rewrite append_assoc.
  - repeat split; try reflexivity. now rewrite append_nil_r.
Qed.

End ConsoleFacts.

Lemma compare_console {T : Type} `{Profile T} `{!ProfileOk T}
    (LookAhead : Z) (ShowDiff ShowOutput isTestCaseHidden : bool)
    (claimedContent correctContent : string) :
  exists (code : Z) (r' : DiffChecker.Run),
    DiffChecker.compare LookAhead ShowDiff ShowOutput isTestCaseHidden
      (IStream.open (Some claimedContent)) (IStream.open (Some correctContent))
      = Some (Ret code, r') /\
    expected LookAhead ShowDiff ShowOutput isTestCaseHidden
      (Tokenizer.tokens claimedContent) (Tokenizer.tokens correctContent)
      = Some (code, DiffChecker.console r').
Proof.
  destruct (compare_outcome LookAhead ShowDiff ShowOutput isTestCaseHidden
              claimedContent correctContent) as ([n v] & Hd & Hcmp).
  unfold expected. rewrite Hd.
  destruct v as [|c g|].
  - do 2 eexists. split; [exact Hcmp|]. reflexivity.
  - apply (verdict_Mismatch _ _ _ _ _ (tokens_ended correctContent)) in Hd.
    destruct Hd as (Ha & Hc & Hg & Eeq & Hk).
    destruct (compare_mismatch LookAhead ShowDiff ShowOutput isTestCaseHidden
                claimedContent correctContent n c g Ha Hc Hg Eeq Hk)
      as (r' & Hcmp' & _ & Herr & line & rest & _ & _ & _ & Hecho).
    exists 0, r'. split; [exact Hcmp'|].
    set (r0 := DiffChecker.start (IStream.open (Some claimedContent))
                 (IStream.open (Some correctContent))) in *.
    assert (Hr' : report LookAhead ShowDiff ShowOutput isTestCaseHidden c g
                    (at_pair n r0) = r').
    { cbn [outcome] in Hcmp. congruence. }
    assert (Hpre : DiffChecker.is_last c = false ->
                   Tokenizer.mIsValid (DiffChecker.claimed (at_pair n r0)) = true).
    { intros E.
      destruct (advance_next n _ c (proj1 (tokens_valid claimedContent)) Hc) as [Hvn _].
      cbn [at_pair DiffChecker.claimed r0 DiffChecker.start]. rewrite Hvn, E.
      reflexivity. }
    destruct (report_exact LookAhead ShowDiff ShowOutput isTestCaseHidden c g
                (at_pair n r0) Hpre) as (_ & _ & _ & Hout).
    rewrite Hr' in Hout. unfold DiffChecker.console. rewrite Hout, Herr.
    cbn [at_pair DiffChecker.cout r0 DiffChecker.start append].
    unfold echo_text. f_equal. f_equal. f_equal.
    destruct ShowOutput; [|reflexivity].
    destruct isTestCaseHidden; [reflexivity|].
    destruct (Hecho eq_refl eq_refl) as (_ & Hbuf & _).
    rewrite Hbuf, append_assoc. reflexivity.
  - do 2 eexists. split; [exact Hcmp|]. reflexivity.
Qed.

(** X11. The comparison of two streams returns the status and leaves the
    output that the two token sequences determine: the grade line of the
    deciding pair and, on a mismatch, the redaction or the echo of the
    claimed tokens. *)
Theorem console_of_the_comparison {T : Type} `{Profile T} `{!ProfileOk T}
    (LookAhead : Z) (ShowDiff ShowOutput isTestCaseHidden : bool)
    (claimedContent correctContent : string) :
  exists (code : Z) (r' : DiffChecker.Run),
    DiffChecker.compare LookAhead ShowDiff ShowOutput isTestCaseHidden
      (IStream.open (Some claimedContent)) (IStream.open (Some correctContent))
      = Some (Ret code, r') /\
    expected LookAhead ShowDiff ShowOutput isTestCaseHidden
      (Tokenizer.tokens claimedContent) (Tokenizer.tokens correctContent)
      = Some (code, DiffChecker.console r').
Proof.
  apply compare_console.
Qed.

(** X12. A hidden test case shows nothing of the two files: whatever they
    hold, standard output is empty, or the line for a claimed output that
    cannot be opened, or [1|Correct output.], or the fixed text of a hidden
    mismatch. *)
Theorem hidden_test_case_reveals_nothing {T : Type} `{Profile T} `{!ProfileOk T}
    (LookAhead : Z) (ShowDiff ShowOutput : bool)
    (fs : string -> option string) (argv : list string) :
  (5 <= List.length argv)%nat -> nth 4 argv "" = "1" ->
  exists (code : Z) (out err : string),
    DiffChecker.diff_checker_base LookAhead ShowDiff ShowOutput fs argv
      = Some (Ret code, (out, err)) /\
    (out = "" \/
     out = "0|Error opening the output file." ++ DiffChecker.endl \/
     out = "1|Correct output." \/
     out = (if ShowDiff
            then "0|Wrong output. (Mismatch intentionally hidden.)" ++ DiffChecker.endl
            else "0|Wrong output." ++ DiffChecker.endl)
           ++ (if ShowOutput
               then "(Your output is intentionally hidden.)" ++ DiffChecker.endl
               else "")).
Proof.
  intros Hargc Hflag. unfold DiffChecker.diff_checker_base.
  rewrite (argc_at_least_5 argv Hargc), Hflag.
  cbn [String.eqb Ascii.eqb Bool.eqb negb andb].
  destruct (fs (nth 2 argv "")) as [cc|]; rewrite ?fail_open_Some, ?fail_open_None.
  2:{ do 3 eexists. split; [reflexivity|]. auto. }
  destruct (fs (nth 3 argv "")) as [gc|]; rewrite ?fail_open_Some, ?fail_open_None.
  2:{ do 3 eexists. split; [reflexivity|]. auto. }
  destruct (compare_console LookAhead ShowDiff ShowOutput true cc gc)
    as (code & r' & Hcmp & Hexp).
  rewrite Hcmp. exists code, (DiffChecker.cout r'), (DiffChecker.cerr r').
  split; [reflexivity|].
  unfold expected, DiffChecker.console in Hexp.
  destruct (verdict _ _) as [[n [|c g|]]|]; try discriminate;
    injection Hexp as _ <- _; auto.
Qed.

Section SelfComparison.
Context {T : Type} `{Profile T} `{!ProfileOk T}.
Import Token.

Lemma isEqual_self (content : string) (i : nat) (tok : Token.t T) :
  (forall v : T, VAL v = true -> EQ v v = true) ->
  nth_error (Tokenizer.tokens content) i = Some tok ->
  isEqual tok tok = true.
Proof.
  intros Hr Hi.
  destruct (nth_is_next i _ tok (proj1 (tokens_valid content)) Hi) as [_ Hn].
  pose proof (next_value _ _ _ Hn) as Hv. unfold isEqual.
  destruct (Token.mKind tok); cbn; try reflexivity. now rewrite (Hr _ Hv).
Qed.

Lemma agree_self (content : string) (n : nat) :
  (forall v : T, VAL v = true -> EQ v v = true) ->
  (n <= List.length (Tokenizer.tokens (T := T) content))%nat ->
  agree (Tokenizer.tokens content) (Tokenizer.tokens content) n.
Proof.
  intros Hr Hn i Hi.
  destruct (nth_error (Tokenizer.tokens content) i) as [tok|] eqn:E.
  - exists tok, tok. repeat split; auto. exact (isEqual_self content i tok Hr E).
  - apply nth_error_None in E. lia.
Qed.

End SelfComparison.

(** X13. A stream compared with itself, under a profile whose equality holds
    of every valid value and itself: if the stream has an EndOfFile token
    the output is correct, with status 0; if it has an Invalid token the
    ground truth is reported as invalid, with status 1 and no grade line. *)
Theorem a_stream_against_itself {T : Type} `{Profile T} `{!ProfileOk T}
    (LookAhead : Z) (ShowDiff ShowOutput isTestCaseHidden : bool)
    (content : string) :
  (forall v : T, VAL v = true -> EQ v v = true) ->
  exists (code : Z) (r' : DiffChecker.Run),
    DiffChecker.compare LookAhead ShowDiff ShowOutput isTestCaseHidden
      (IStream.open (Some content)) (IStream.open (Some content))
      = Some (Ret code, r') /\
    (forall i tok, nth_error (Tokenizer.tokens content) i = Some tok ->
       Token.kind tok = Token.EndOfFile ->
       code = 0 /\ DiffChecker.console r' = ("1|Correct output.", "")) /\
    (forall i tok, nth_error (Tokenizer.tokens content) i = Some tok ->
       Token.kind tok = Token.Invalid ->
       code = 1 /\
       DiffChecker.console r'
       = ("", "Ground-truth file format is invalid." ++ DiffChecker.endl)).
Proof.
  intros Hr.
  destruct (compare_console LookAhead ShowDiff ShowOutput isTestCaseHidden
              content content) as (code & r' & Hcmp & Hexp).
  exists code, r'. split; [exact Hcmp|].
  pose proof (tokens_ended (T := T) content) as He.
  pose proof (tokens_continued (T := T) content) as Hco.
  unfold expected in Hexp. split.
  - intros i tok Hi Hk.
    assert (Hlt : (i < List.length (Tokenizer.tokens content))%nat)
      by (apply nth_error_Some; congruence).
    assert (Hv : verdict (Tokenizer.tokens content) (Tokenizer.tokens content)
                 = Some (i, Correct)).
    { apply (verdict_Correct _ _ _ He). split; [apply agree_self; auto|]. eauto. }
    rewrite Hv in Hexp. unfold DiffChecker.console in *.
    injection Hexp as <- <- <-. auto.
  - intros i tok Hi Hk.
    assert (Hlt : (i < List.length (Tokenizer.tokens content))%nat)
      by (apply nth_error_Some; congruence).
    assert (Hv : verdict (Tokenizer.tokens content) (Tokenizer.tokens content)
                 = Some (i, BadGroundTruth)).
    { apply (verdict_BadGroundTruth _ _ _ He Hco).
      split; [apply agree_self; auto; lia|]. eauto. }
    rewrite Hv in Hexp. unfold DiffChecker.console in *.
    injection Hexp as <- <- <-. auto.
Qed.

(** X14. Under the character profile, white space that the tokenizer skips
    at the end of either file changes neither the status nor what is
    printed. *)
Theorem trailing_white_space_does_not_change_the_outcome
    (LookAhead : Z) (ShowDiff ShowOutput isTestCaseHidden : bool)
    (w1 t1 w2 t2 : string) :
  ends_in_text w1 = true -> insignificant t1 ->
  ends_in_text w2 = true -> insignificant t2 ->
  exists (code : Z) (r1 r2 : DiffChecker.Run),
    DiffChecker.compare LookAhead ShowDiff ShowOutput isTestCaseHidden
      (IStream.open (Some (w1 ++ t1))) (IStream.open (Some (w2 ++ t2)))
      = Some (Ret code, r1) /\
    DiffChecker.compare LookAhead ShowDiff ShowOutput isTestCaseHidden
      (IStream.open (Some w1)) (IStream.open (Some w2))
      = Some (Ret code, r2) /\
    DiffChecker.console r1 = DiffChecker.console r2.
Proof.
  intros H1 Ht1 H2 Ht2.
  destruct (@compare_console ascii DiffCheckerChar.profile char_profile_ok
              LookAhead ShowDiff ShowOutput isTestCaseHidden (w1 ++ t1) (w2 ++ t2))
    as (code & r1 & Hc1 & He1).
  destruct (@compare_console ascii DiffCheckerChar.profile char_profile_ok
              LookAhead ShowDiff ShowOutput isTestCaseHidden w1 w2)
    as (code' & r2 & Hc2 & He2).
  rewrite (tokens_trailing w1 t1 H1 Ht1), (tokens_trailing w2 t2 H2 Ht2) in He1.
  rewrite He2 in He1. unfold DiffChecker.console in *.
  injection He1 as Hcode Hout Herr. subst code'.
  exists code, r1, r2. split; [exact Hc1|]. split; [exact Hc2|]. congruence.
Qed.

(** X15. A claimed output of invalid format is the contestant's failure, not
    the environment's: when the claimed token of a pair is Invalid, the
    pairs before it are equal and the ground-truth token is not Invalid, the
    status is 0 and a grade-0 line is printed, with nothing on standard
    error; an echo ends in [<invalid-format>..?..]. *)
Theorem invalid_claimed_output_is_graded {T : Type} `{Profile T} `{!ProfileOk T}
    (LookAhead : Z) (ShowDiff ShowOutput isTestCaseHidden : bool)
    (claimedContent correctContent : string) (n : nat) (c g : Token.t T) :
  agree (Tokenizer.tokens claimedContent) (Tokenizer.tokens correctContent) n ->
  nth_error (Tokenizer.tokens claimedContent) n = Some c ->
  nth_error (Tokenizer.tokens correctContent) n = Some g ->
  Token.kind c = Token.Invalid -> Token.kind g <> Token.Invalid ->
  exists (r' : DiffChecker.Run),
    DiffChecker.compare LookAhead ShowDiff ShowOutput isTestCaseHidden
      (IStream.open (Some claimedContent)) (IStream.open (Some correctContent))
      = Some (Ret 0, r') /\
    DiffChecker.cerr r' = "" /\
    DiffChecker.cout r' =
      diff_text ShowDiff isTestCaseHidden c g
      ++ (if ShowOutput then
            if isTestCaseHidden
            then "(Your output is intentionally hidden.)" ++ DiffChecker.endl
            else "Your output (as parsed):" ++ DiffChecker.endl
                 ++ sstrs (firstn n (Tokenizer.tokens claimedContent))
                 ++ "<invalid-format>..?.." ++ DiffChecker.endl
          else "").
Proof.
  intros Ha Hc Hg Hkc Hkg.
  assert (Eeq : Token.isEqual g c = false).
  { unfold Token.isEqual, Token.kind in *. rewrite Hkc.
    destruct (Token.mKind g); cbn; congruence. }
  destruct (compare_console LookAhead ShowDiff ShowOutput isTestCaseHidden
              claimedContent correctContent) as (code & r' & Hcmp & Hexp).
  assert (Hv : verdict (Tokenizer.tokens claimedContent)
                 (Tokenizer.tokens correctContent) = Some (n, Mismatch c g)).
  { apply (verdict_Mismatch _ _ _ _ _ (tokens_ended correctContent)). auto. }
  unfold expected, DiffChecker.console in Hexp. rewrite Hv in Hexp.
  injection Hexp as <- Hout Herr.
  exists r'. split; [exact Hcmp|].
  split; [auto|]. rewrite <- Hout. f_equal. unfold echo_text.
  destruct ShowOutput; [|reflexivity]. destruct isTestCaseHidden; [reflexivity|].
  assert (Hlast : DiffChecker.is_last c = true).
  { unfold DiffChecker.is_last. rewrite Hkc. reflexivity. }
  pose proof (tokens_ended (T := T) claimedContent n c Hc Hlast) as Hend.
  apply nth_error_None in Hend.
  assert (Hall : firstn (S n + Z.to_nat LookAhead) (Tokenizer.tokens claimedContent)
                 = (firstn n (Tokenizer.tokens claimedContent) ++ [c])%list).
  { rewrite firstn_all2 by lia.
    rewrite <- (firstn_all2 (n := S n) (Tokenizer.tokens claimedContent)) at 1 by lia.
    apply firstn_snoc. exact Hc. }
  rewrite Hall, last_last, sstrs_app.
  replace (sstrs [c]) with "<invalid-format>"
    by (unfold sstrs, Token.sstr, Token.kind in *; cbn; rewrite Hkc; reflexivity).
  replace (marker c) with "..?.."
    by (unfold marker, Token.kind in *; rewrite Hkc; reflexivity).
  rewrite append_assoc. reflexivity.
Qed.

(** ** Instances of the further properties, under the character profile *)

(** The stream [a b]. *)
Lemma token_sequence_shape_witness :
  exists (front : list (Token.t ascii)) (lastToken : Token.t ascii),
    Tokenizer.tokens "a b" = (front ++ [lastToken])%list /\
    (Token.kind lastToken = Token.EndOfFile \/ Token.kind lastToken = Token.Invalid) /\
    Forall (fun tok => Token.kind tok <> Token.EndOfFile /\
                       Token.kind tok <> Token.Invalid) front /\
    (List.length front <= String.length "a b")%nat.
Proof.
  exact (@token_sequence_shape ascii DiffCheckerChar.profile char_profile_ok "a b").
Defined.

(** The token of [c] on the second line of [a b], newline, [c]. *)
Lemma position_counts_tokens_witness :
  Z.of_nat (String.length ("a b" ++ nl ++ "c")) < 2 ^ 64 - 1 /\
  nth_error (Tokenizer.tokens ("a b" ++ nl ++ "c")) 4
    = Some (Token.of_value "c"%char 2 1) /\
  Token.line (Token.of_value "c"%char 2 1)
    = 1 + Z.of_nat (newlines (firstn 4 (Tokenizer.tokens (T := ascii) ("a b" ++ nl ++ "c")))) /\
  Token.token (Token.of_value "c"%char 2 1)
    = 1 + Z.of_nat (column (firstn 4 (Tokenizer.tokens (T := ascii) ("a b" ++ nl ++ "c")))).
Proof.
  assert (Hlen : Z.of_nat (String.length ("a b" ++ nl ++ "c")) < 2 ^ 64 - 1)
    by (vm_compute; reflexivity).
  assert (Hi : nth_error (Tokenizer.tokens ("a b" ++ nl ++ "c")) 4
               = Some (Token.of_value "c"%char 2 1)) by (vm_compute; reflexivity).
  split; [exact Hlen|]. split; [exact Hi|].
  exact (@position_counts_tokens ascii DiffCheckerChar.profile char_profile_ok
           ("a b" ++ nl ++ "c") 4 (Token.of_value "c"%char 2 1) Hlen Hi).
Defined.

(** The first token of [a b]. *)
Lemma valid_tokens_are_valid_witness :
  nth_error (Tokenizer.tokens "a b") 0 = Some (Token.of_value "a"%char 1 1) /\
  Token.kind (Token.of_value "a"%char 1 1) = Token.Valid /\
  VAL (Token.mValue (Token.of_value "a"%char 1 1)) = true.
Proof.
  assert (Hi : nth_error (Tokenizer.tokens "a b") 0
               = Some (Token.of_value "a"%char 1 1)) by (vm_compute; reflexivity).
  split; [exact Hi|]. split; [reflexivity|].
  exact (proj1 (@valid_tokens_are_valid ascii DiffCheckerChar.profile char_profile_ok
                  "a b" 0 (Token.of_value "a"%char 1 1) Hi) eq_refl).
Defined.

(** A tokenizer at the start of the stream [ab]. *)
Lemma consume_after_peek_returns_witness :
  fst (peek (Tokenizer.mInput (Tokenizer.create (IStream.open (Some "ab"))))) <> EOF /\
  exists k',
    Tokenizer.consume
      (fst (peek (Tokenizer.mInput (Tokenizer.create (IStream.open (Some "ab"))))))
      (Tokenizer.set_mInput
         (snd (peek (Tokenizer.mInput (Tokenizer.create (IStream.open (Some "ab"))))))
         (Tokenizer.create (IStream.open (Some "ab")))) = (Ret tt, k') /\
    exists c,
      fst (peek (Tokenizer.mInput (Tokenizer.create (IStream.open (Some "ab"))))) = code c /\
      unread (Tokenizer.create (IStream.open (Some "ab"))) = String c (unread k').
Proof.
  assert (Hp : fst (peek (Tokenizer.mInput (Tokenizer.create (IStream.open (Some "ab")))))
               <> EOF) by discriminate.
  split; [exact Hp|].
  destruct (consume_after_peek_returns (Tokenizer.create (IStream.open (Some "ab"))))
    as (k' & Hc & _ & _ & _ & _ & Hrest).
  exists k'. split; [exact Hc|]. exact (Hrest Hp).
Defined.

(** Two Valid tokens of [a] at different positions. *)
Lemma lstr_determines_kind_witness :
  Token.lstr (Token.of_value "a"%char 1 1) = Token.lstr (Token.of_value "a"%char 2 3) /\
  Token.kind (Token.of_value "a"%char 1 1) = Token.kind (Token.of_value "a"%char 2 3).
Proof.
  assert (Hl : Token.lstr (Token.of_value "a"%char 1 1)
               = Token.lstr (Token.of_value "a"%char 2 3)) by reflexivity.
  split; [exact Hl|].
  exact (proj2 (@lstr_determines_kind ascii DiffCheckerChar.profile
                  (Token.of_value "a"%char 1 1) (Token.of_value "a"%char 2 3)) Hl).
Defined.

(** The exact predicate of the character profile is reflexive. *)
Lemma isEqual_is_positionless_witness :
  (forall v : ascii, EQ v v = true) /\
  Token.isEqual (Token.of_value "a"%char 1 1) (Token.of_value "a"%char 1 1) = true.
Proof.
  assert (Hr : forall v : ascii, EQ v v = true).
  { intros v. cbn. unfold DiffCheckerChar.eq. apply Z.eqb_refl. }
  split; [exact Hr|].
  destruct (@isEqual_is_positionless ascii DiffCheckerChar.profile
              (Token.of_value "a"%char 1 1) (Token.of_value "a"%char 1 1)
              (Token.of_value "a"%char 1 1)) as (_ & _ & _ & _ & Hrefl & _).
  exact (Hrefl Hr).
Defined.

(** The character [a]. *)
Lemma char_predicates_witness :
  33 <= code "a" <= 126 /\ DiffCheckerChar.val "a" = true.
Proof.
  assert (Hc : 33 <= code "a" <= 126) by (vm_compute; split; discriminate).
  split; [exact Hc|].
  exact (proj2 (proj1 (char_predicates "a" "a")) Hc).
Defined.

(** The claimed output [1 2 4] against [1 2 3]. *)
Lemma console_of_the_comparison_witness :
  exists (code : Z) (r' : DiffChecker.Run),
    DiffChecker.compare 10 true true false
      (IStream.open (Some ("1 2 4" ++ nl))) (IStream.open (Some ("1 2 3" ++ nl)))
      = Some (Ret code, r') /\
    expected (T := ascii) 10 true true false
      (Tokenizer.tokens ("1 2 4" ++ nl)) (Tokenizer.tokens ("1 2 3" ++ nl))
      = Some (code, DiffChecker.console r').
Proof.
  exact (@console_of_the_comparison ascii DiffCheckerChar.profile char_profile_ok
           10 true true false ("1 2 4" ++ nl) ("1 2 3" ++ nl)).
Defined.

(** The same files, hidden. *)
Lemma hidden_test_case_reveals_nothing_witness :
  (5 <= List.length (command_line "1"))%nat /\
  nth 4 (command_line "1") "" = "1" /\
  exists (code : Z) (out err : string),
    DiffChecker.diff_checker_base (T := ascii) 10 true true
      (two_files (Some ("1 2 4" ++ nl)) (Some ("1 2 3" ++ nl))) (command_line "1")
      = Some (Ret code, (out, err)) /\
    (out = "" \/
     out = "0|Error opening the output file." ++ DiffChecker.endl \/
     out = "1|Correct output." \/
     out = ("0|Wrong output. (Mismatch intentionally hidden.)" ++ DiffChecker.endl)
           ++ "(Your output is intentionally hidden.)" ++ DiffChecker.endl).
Proof.
  assert (H1 : (5 <= List.length (command_line "1"))%nat) by (cbn; lia).
  assert (H2 : nth 4 (command_line "1") "" = "1") by reflexivity.
  split; [exact H1|]. split; [exact H2|].
  exact (@hidden_test_case_reveals_nothing ascii DiffCheckerChar.profile
           char_profile_ok 10 true true
           (two_files (Some ("1 2 4" ++ nl)) (Some ("1 2 3" ++ nl)))
           (command_line "1") H1 H2).
Defined.

(** The stream [a b] against itself. *)
Lemma a_stream_against_itself_witness :
  (forall v : ascii, VAL v = true -> EQ v v = true) /\
  nth_error (Tokenizer.tokens "a b") 3 = Some (Token.mk Token.EndOfFile zero 1 4) /\
  exists (code : Z) (r' : DiffChecker.Run),
    DiffChecker.compare 10 true true false
      (IStream.open (Some "a b")) (IStream.open (Some "a b")) = Some (Ret code, r') /\
    code = 0 /\ DiffChecker.console r' = ("1|Correct output.", "").
Proof.
  assert (Hr : forall v : ascii, VAL v = true -> EQ v v = true).
  { intros v _. cbn. unfold DiffCheckerChar.eq. apply Z.eqb_refl. }
  assert (Hi : nth_error (Tokenizer.tokens "a b") 3
               = Some (Token.mk Token.EndOfFile zero 1 4)) by (vm_compute; reflexivity).
  split; [exact Hr|]. split; [exact Hi|].
  destruct (@a_stream_against_itself ascii DiffCheckerChar.profile char_profile_ok
              10 true true false "a b" Hr) as (code & r' & Hcmp & Heof & _).
  exists code, r'. split; [exact Hcmp|].
  exact (Heof 3%nat (Token.mk Token.EndOfFile zero 1 4) Hi eq_refl).
Defined.

(** The stream [a] followed by a space and a newline. *)
Lemma trailing_white_space_is_skipped_witness :
  ends_in_text "a" = true /\ insignificant (" " ++ nl) /\
  Tokenizer.tokens (T := ascii) ("a" ++ " " ++ nl) = Tokenizer.tokens (T := ascii) "a".
Proof.
  assert (He : ends_in_text "a" = true) by reflexivity.
  assert (Ht : insignificant (" " ++ nl)) by (do 3 right; reflexivity).
  split; [exact He|]. split; [exact Ht|].
  exact (trailing_white_space_is_skipped "a" (" " ++ nl) He Ht).
Defined.

(** The claimed output [1 2 4] with and without its final newline. *)
Lemma trailing_white_space_does_not_change_the_outcome_witness :
  ends_in_text "1 2 4" = true /\ insignificant nl /\
  ends_in_text "1 2 3" = true /\ insignificant "" /\
  exists (code : Z) (r1 r2 : DiffChecker.Run),
    DiffChecker.compare 10 true true false
      (IStream.open (Some ("1 2 4" ++ nl))) (IStream.open (Some ("1 2 3" ++ "")))
      = Some (Ret code, r1) /\
    DiffChecker.compare 10 true true false
      (IStream.open (Some "1 2 4")) (IStream.open (Some "1 2 3"))
      = Some (Ret code, r2) /\
    DiffChecker.console r1 = DiffChecker.console r2.
Proof.
  assert (H1 : ends_in_text "1 2 4" = true) by reflexivity.
  assert (H2 : ends_in_text "1 2 3" = true) by reflexivity.
  assert (T1 : insignificant nl) by (do 2 right; left; reflexivity).
  assert (T2 : insignificant "") by (left; reflexivity).
  split; [exact H1|]. split; [exact T1|]. split; [exact H2|]. split; [exact T2|].
  exact (trailing_white_space_does_not_change_the_outcome 10 true true false
           "1 2 4" nl "1 2 3" "" H1 T1 H2 T2).
Defined.

(** A claimed output that starts with the control character 1, against the
    ground truth [a]. *)
Lemma invalid_claimed_output_is_graded_witness :
  agree (Tokenizer.tokens (T := ascii) (String "001" "")) (Tokenizer.tokens "a") 0 /\
  nth_error (Tokenizer.tokens (String "001" "")) 0
    = Some (Token.mk Token.Invalid zero 1 1) /\
  nth_error (Tokenizer.tokens "a") 0 = Some (Token.of_value "a"%char 1 1) /\
  Token.kind (Token.mk Token.Invalid zero 1 1) = Token.Invalid /\
  Token.kind (Token.of_value "a"%char 1 1) <> Token.Invalid /\
  exists r' : DiffChecker.Run,
    DiffChecker.compare 10 true true false
      (IStream.open (Some (String "001" ""))) (IStream.open (Some "a"))
      = Some (Ret 0, r') /\
    DiffChecker.cerr r' = "".
Proof.
  assert (Ha : agree (Tokenizer.tokens (T := ascii) (String "001" ""))
                 (Tokenizer.tokens "a") 0) by (intros i Hi; lia).
  assert (Hc : nth_error (Tokenizer.tokens (String "001" "")) 0
               = Some (Token.mk Token.Invalid zero 1 1)) by (vm_compute; reflexivity).
  assert (Hg : nth_error (Tokenizer.tokens "a") 0
               = Some (Token.of_value "a"%char 1 1)) by (vm_compute; reflexivity).
  assert (Hkc : Token.kind (Token.mk (T := ascii) Token.Invalid zero 1 1)
                = Token.Invalid) by reflexivity.
  assert (Hkg : Token.kind (Token.of_value "a"%char 1 1) <> Token.Invalid)
    by discriminate.
  split; [exact Ha|]. split; [exact Hc|]. split; [exact Hg|].
  split; [exact Hkc|]. split; [exact Hkg|].
  destruct (@invalid_claimed_output_is_graded ascii DiffCheckerChar.profile
              char_profile_ok 10 true true false (String "001" "") "a" 0%nat
              (Token.mk Token.Invalid zero 1 1) (Token.of_value "a"%char 1 1)
              Ha Hc Hg Hkc Hkg) as (r' & Hcmp & Herr & _).
  exists r'. split; [exact Hcmp|exact Herr].
Defined.

(** ** The echo and the end of the claimed output *)

Section Echo.
Import Token Tokenizer.

Lemma val_not_space (c : ascii) :
  DiffCheckerChar.val c = true ->
  isspace c = false /\ code c <> code "010" /\ code c <> code " ".
Proof.
  intros Hv. pose proof (code_range c) as Hc.
  unfold DiffCheckerChar.val, DiffCheckerChar.char_value in Hv.
  change (code "!") with 33 in Hv. change (code "~") with 126 in Hv.
  cbn [Z.ltb Z.compare Pos.compare Pos.compare_cont] in Hv.
  apply andb_true_iff in Hv. destruct Hv as [H1 H2].
  apply Z.leb_le in H1, H2.
  assert (H33 : 33 <= code c <= 126).
  { destruct (code c <? 128) eqn:E; [apply Z.ltb_lt in E|apply Z.ltb_ge in E]; lia. }
  change (code "010") with 10. change (code " ") with 32.
  split; [|lia]. unfold isspace.
  apply orb_false_iff. split; [apply Z.eqb_neq; lia|].
  apply andb_false_iff. right. apply Z.leb_gt. lia.
Qed.

Lemma sstrs_of_echoable (m : nat) (w : string) (l n : Pos) :
  (String.length w < m)%nat -> echoable w = true ->
  sstrs (tokens_of (T := ascii)
           (Tokenizer.mk (IStream.mk w false false) true l n)) = w ++ "<end>".
Proof.
  revert w l n. induction m as [|m IH]; intros w l n Hm He; [lia|].
  destruct w as [|c r]; [reflexivity|].
  cbn [echoable] in He. destruct (DiffCheckerChar.val c) eqn:Ev.
  - destruct (val_not_space c Ev) as (Hs & Hnl & Hsp).
    assert (Hex : extract (IStream.mk (String c r) false false)
                  = (c, IStream.mk r false false)).
    { cbn [extract DiffCheckerChar.profile]. unfold extract_char.
      cbn [good eofbit failbit negb andb rdbuf skipws]. rewrite Hs. reflexivity. }
    rewrite (tokens_of_step _ _ _ _ _
               (next_on_value c r l n c _ Hnl Hsp Hex eq_refl Ev)).
    cbn [DiffChecker.is_last kind Token.mKind Kind_eqb orb of_value].
    rewrite sstrs_cons, (IH r) by (cbn in *; auto; lia). reflexivity.
  - destruct (code c =? code " ") eqn:Esp.
    + apply Z.eqb_eq, code_inj in Esp. subst c. cbn [orb andb] in He.
      destruct r as [|d r]; [discriminate|].
      change (code " " =? code " ") with true in He. cbn [orb andb] in He.
      apply andb_true_iff in He. destruct He as [Hd He].
      apply negb_true_iff, Z.eqb_neq in Hd.
      rewrite (tokens_of_step _ _ _ _ _ (next_on_space d r l n Hd)).
      cbn [DiffChecker.is_last kind Token.mKind Kind_eqb orb].
      rewrite sstrs_cons, (IH (String d r)) by (cbn in *; auto; lia). reflexivity.
    + cbn [orb] in He.
      destruct (code c =? code "010") eqn:Enl; [|discriminate].
      apply Z.eqb_eq, code_inj in Enl. subst c.
      destruct r as [|d r]; [discriminate|].
      cbn [andb negb] in He.
      rewrite (tokens_of_step _ _ _ _ _ (next_on_newline d r l n)).
      cbn [DiffChecker.is_last kind Token.mKind Kind_eqb orb].
      rewrite sstrs_cons, (IH (String d r)) by (cbn in *; auto; lia). reflexivity.
Qed.


End Echo.

(** X16. Under the character profile the short forms give back the text: for
    a stream of printable characters, spaces and newlines that has no white
    space at its end and no space before a newline, the short forms of its
    tokens, put together, are the stream followed by [<end>]. *)
Theorem short_forms_give_the_text_back (w : string) :
  echoable w = true ->
  sstrs (Tokenizer.tokens (T := ascii) w) = w ++ "<end>".
Proof.
  intros He.
  exact (sstrs_of_echoable (S (String.length w)) w 1 1 (Nat.lt_succ_diag_r _) He).
Qed.

(** The text [a  b], newline, [c]. *)
Lemma short_forms_give_the_text_back_witness :
  echoable ("a  b" ++ nl ++ "c") = true /\
  sstrs (Tokenizer.tokens (T := ascii) ("a  b" ++ nl ++ "c"))
  = ("a  b" ++ nl ++ "c") ++ "<end>".
Proof.
  assert (He : echoable ("a  b" ++ nl ++ "c") = true) by (vm_compute; reflexivity).
  split; [exact He|].
  exact (short_forms_give_the_text_back ("a  b" ++ nl ++ "c") He).
Defined.



(** A mismatch on the last token of the claimed stream: nothing more is
    pulled for the echo. *)
Lemma mismatch_on_last_claimed_token {T : Type} `{Profile T} `{!ProfileOk T}
    (LookAhead : Z) (ShowDiff ShowOutput isTestCaseHidden : bool)
    (claimedContent correctContent : string) (n : nat) (c g : Token.t T) :
  agree (Tokenizer.tokens claimedContent) (Tokenizer.tokens correctContent) n ->
  nth_error (Tokenizer.tokens claimedContent) n = Some c ->
  nth_error (Tokenizer.tokens correctContent) n = Some g ->
  DiffChecker.is_last c = true ->
  Token.isEqual g c = false -> Token.kind g <> Token.Invalid ->
  exists (r' : DiffChecker.Run),
    DiffChecker.compare LookAhead ShowDiff ShowOutput isTestCaseHidden
      (IStream.open (Some claimedContent)) (IStream.open (Some correctContent))
      = Some (Ret 0, r') /\
    DiffChecker.cerr r' = "" /\
    DiffChecker.cout r' =
      diff_text ShowDiff isTestCaseHidden c g
      ++ (if ShowOutput then
            if isTestCaseHidden
            then "(Your output is intentionally hidden.)" ++ DiffChecker.endl
            else "Your output (as parsed):" ++ DiffChecker.endl
                 ++ sstrs (firstn n (Tokenizer.tokens claimedContent))
                 ++ Token.sstr c ++ marker c ++ DiffChecker.endl
          else "").
Proof.
  intros Ha Hc Hg Hlast Eeq Hkg.
  destruct (compare_console LookAhead ShowDiff ShowOutput isTestCaseHidden
              claimedContent correctContent) as (code & r' & Hcmp & Hexp).
  assert (Hv : verdict (Tokenizer.tokens claimedContent)
                 (Tokenizer.tokens correctContent) = Some (n, Mismatch c g)).
  { apply (verdict_Mismatch _ _ _ _ _ (tokens_ended correctContent)). auto. }
  unfold expected, DiffChecker.console in Hexp. rewrite Hv in Hexp.
  injection Hexp as <- Hout Herr.
  exists r'. split; [exact Hcmp|].
  split; [auto|]. rewrite <- Hout. f_equal. unfold echo_text.
  destruct ShowOutput; [|reflexivity]. destruct isTestCaseHidden; [reflexivity|].
  pose proof (tokens_ended (T := T) claimedContent n c Hc Hlast) as Hend.
  apply nth_error_None in Hend.
  assert (Hall : firstn (S n + Z.to_nat LookAhead) (Tokenizer.tokens claimedContent)
                 = (firstn n (Tokenizer.tokens claimedContent) ++ [c])%list).
  { rewrite firstn_all2 by lia.
    rewrite <- (firstn_all2 (n := S n) (Tokenizer.tokens claimedContent)) at 1 by lia.
    apply firstn_snoc. exact Hc. }
  rewrite Hall, last_last, sstrs_app.
  replace (sstrs [c]) with (Token.sstr c)
    by (unfold sstrs; cbn; now rewrite append_nil_r).
  rewrite !append_assoc. reflexivity.
Qed.

(** X17. A claimed output that ends before the ground truth does: when the
    claimed token of a pair is EndOfFile, the pairs before it are equal and
    the ground-truth token is neither EndOfFile nor Invalid, the status is 0
    and the grade is 0; shown in detail, the line names [<end>] at the
    position of the claimed end and the long form of the token expected, and
    the echo closes on [<end>] with no marker. *)
Theorem truncated_claimed_output {T : Type} `{Profile T} `{!ProfileOk T}
    (LookAhead : Z) (claimedContent correctContent : string)
    (n : nat) (c g : Token.t T) :
  agree (Tokenizer.tokens claimedContent) (Tokenizer.tokens correctContent) n ->
  nth_error (Tokenizer.tokens claimedContent) n = Some c ->
  nth_error (Tokenizer.tokens correctContent) n = Some g ->
  Token.kind c = Token.EndOfFile ->
  Token.kind g <> Token.EndOfFile -> Token.kind g <> Token.Invalid ->
  exists (r' : DiffChecker.Run),
    DiffChecker.compare LookAhead true true false
      (IStream.open (Some claimedContent)) (IStream.open (Some correctContent))
      = Some (Ret 0, r') /\
    DiffChecker.cerr r' = "" /\
    DiffChecker.cout r' =
      "0|Unexpected <end> at line " ++ show_pos (Token.line c)
      ++ ", token " ++ show_pos (Token.token c)
      ++ ", while expecting " ++ Token.lstr g ++ "." ++ DiffChecker.endl
      ++ "Your output (as parsed):" ++ DiffChecker.endl
      ++ sstrs (firstn n (Tokenizer.tokens claimedContent))
      ++ "<end>" ++ DiffChecker.endl.
Proof.
  intros Ha Hc Hg Hkc Hkg Hkg'.
  assert (Eeq : Token.isEqual g c = false).
  { unfold Token.isEqual, Token.kind in *. rewrite Hkc.
    destruct (Token.mKind g); cbn; congruence. }
  assert (Hlast : DiffChecker.is_last c = true).
  { unfold DiffChecker.is_last. rewrite Hkc. reflexivity. }
  destruct (mismatch_on_last_claimed_token LookAhead true true false
              claimedContent correctContent n c g Ha Hc Hg Hlast Eeq Hkg')
    as (r' & Hcmp & Herr & Hout).
  exists r'. split; [exact Hcmp|]. split; [exact Herr|]. rewrite Hout.
  unfold diff_text, unexpected_line, marker, Token.sstr, Token.lstr, Token.kind in *.
  rewrite Hkc. rewrite !append_assoc. reflexivity.
Qed.

(** The claimed output [1 2] against the ground truth [1 2 3]. *)
Lemma truncated_claimed_output_witness :
  agree (Tokenizer.tokens (T := ascii) "1 2") (Tokenizer.tokens "1 2 3") 3 /\
  nth_error (Tokenizer.tokens "1 2") 3 = Some (Token.mk Token.EndOfFile zero 1 4) /\
  nth_error (Tokenizer.tokens "1 2 3") 3 = Some (Token.mk Token.Space zero 1 4) /\
  exists r' : DiffChecker.Run,
    DiffChecker.compare 10 true true false
      (IStream.open (Some "1 2")) (IStream.open (Some "1 2 3")) = Some (Ret 0, r') /\
    DiffChecker.cerr r' = "".
Proof.
  assert (Ha : agree (Tokenizer.tokens (T := ascii) "1 2") (Tokenizer.tokens "1 2 3") 3).
  { intros i Hi.
    do 3 (destruct i as [|i];
          [do 2 eexists; split; [vm_compute; reflexivity|];
           split; [vm_compute; reflexivity|reflexivity]|]).
    lia. }
  assert (Hc : nth_error (Tokenizer.tokens "1 2") 3
               = Some (Token.mk Token.EndOfFile zero 1 4)) by (vm_compute; reflexivity).
  assert (Hg : nth_error (Tokenizer.tokens "1 2 3") 3
               = Some (Token.mk Token.Space zero 1 4)) by (vm_compute; reflexivity).
  split; [exact Ha|]. split; [exact Hc|]. split; [exact Hg|].
  destruct (@truncated_claimed_output ascii DiffCheckerChar.profile char_profile_ok
              10 "1 2" "1 2 3" 3%nat
              (Token.mk Token.EndOfFile zero 1 4) (Token.mk Token.Space zero 1 4)
              Ha Hc Hg eq_refl ltac:(discriminate) ltac:(discriminate))
    as (r' & Hcmp & Herr & _).
  exists r'. split; [exact Hcmp|exact Herr].
Defined.
